(** * KIAUH menu framework: [core/menus/base_menu.py] and [advanced_menu.py]

    A shallow embedding of the abstract menu class [BaseMenu], of its
    input validator, of its run loop and of the navigation between menus,
    followed by the properties of the menu lifecycle.

    Conventions of the embedding:
    - Python values that can reach the menu code are the constructors of
      [PyVal]; strings are ASCII strings and [str.lower] is [lower];
    - menu instances live in a store ([heap]) and are referred to by
      reference, so that assigning [previous_menu] is visible through every
      alias of the instance;
    - the terminal is a list of pending input lines ([stdin]) and a trace
      of what was written ([stdout]); the layout of the boxes and the
      colour codes are not modelled, each print statement is one [Event];
    - a method returns an [Outcome]: a result, a raised exception, or the
      termination of the process by [sys.exit]. *)

From stdpp Require Import gmap strings list.
From Stdlib Require Import Ascii String ZArith.

Open Scope string_scope.

(** ** Values *)

(** Modelled from the spec: [FooterType] is declared in
    [core/menus/__init__.py], which is not among the sources. The members
    the code names are [QUIT], [BACK] and [BACK_HELP]; [footer_type] is an
    ordinary attribute, and [OtherFooter] stands for any other value it may
    hold. *)
Inductive FooterType :=
| QUIT
| BACK
| BACK_HELP
| OtherFooter (tag : string).

#[global] Instance FooterType_eq_dec : EqDecision FooterType.
Proof. solve_decision. Defined.

Definition FooterType_encode (f : FooterType) : nat + string :=
  match f with
  | QUIT => inl 0
  | BACK => inl 1
  | BACK_HELP => inl 2
  | OtherFooter t => inr t
  end.

Definition FooterType_decode (x : nat + string) : FooterType :=
  match x with
  | inl 0 => QUIT
  | inl 1 => BACK
  | inl _ => BACK_HELP
  | inr t => OtherFooter t
  end.

#[global] Instance FooterType_countable : Countable FooterType.
Proof.
  apply (inj_countable' FooterType_encode FooterType_decode).
  by intros [].
Defined.

(** The class of a menu object: [BaseMenu] itself or a named subclass. *)
Inductive MenuClass :=
| BaseMenuClass
| SubClass (name : string).

(** The values an option table, [default_option], [previous_menu] or the
    validator's result can hold. [PyFunc] is a callable that is not a menu
    class, [PyMenuType] a class object deriving from [BaseMenu], [PyMenu] a
    reference to a menu instance, [PyObj] any other object (not callable,
    not a menu). *)
Inductive PyVal :=
| PyNone
| PyStr (s : string)
| PyFunc (f : string)
| PyMenuType (c : MenuClass)
| PyMenu (r : nat)
| PyObj (tag : string).

Inductive PyExn :=
| NotImplementedError (msg : string)
| AttributeError
| KeyError
| TypeError
| EOFError
| OtherError (msg : string).

(** [x is None] *)
Definition is_none (v : PyVal) : bool :=
  match v with PyNone => true | _ => false end.

(** [x == s] for a string literal [s]: only a string equal to [s] compares
    equal. *)
Definition eq_str (v : PyVal) (s : string) : bool :=
  match v with PyStr t => bool_decide (t = s) | _ => false end.

(** [isinstance(x, type) and issubclass(x, BaseMenu)] *)
Definition is_menu_type (v : PyVal) : bool :=
  match v with PyMenuType _ => true | _ => false end.

(** [isinstance(x, BaseMenu)] *)
Definition is_menu_instance (v : PyVal) : bool :=
  match v with PyMenu _ => true | _ => false end.

(** [callable(x)]: functions and classes. *)
Definition callable (v : PyVal) : bool :=
  match v with PyFunc _ | PyMenuType _ => true | _ => false end.

(** [str.lower] on ASCII text. *)
Definition lower_ascii (c : ascii) : ascii :=
  let n := nat_of_ascii c in
  if (65 <=? n)%nat && (n <=? 90)%nat then ascii_of_nat (n + 32) else c.

Fixpoint lower (s : string) : string :=
  match s with
  | EmptyString => EmptyString
  | String c s' => String (lower_ascii c) (lower s')
  end.

(** ** The menu object *)

(** The attributes of [BaseMenu] (class attributes and their instance
    overrides read alike through [self]). [options] is [None] until the menu
    populates it; [default_option] is [PyNone] when no default is
    configured. [cls] is [type(self)]. *)
Record BaseMenu := mkMenu {
  cls : MenuClass;
  options : option (gmap string PyVal);
  default_option : PyVal;
  input_label_txt : string;
  header : bool;
  previous_menu : PyVal;
  footer_type : FooterType
}.

Definition set_previous (v : PyVal) (m : BaseMenu) : BaseMenu :=
  mkMenu (cls m) (options m) (default_option m) (input_label_txt m)
         (header m) v (footer_type m).

(** The result of code that does not touch the terminal or the store. *)
Inductive PyResult (A : Type) :=
| Ok (a : A)
| Err (e : PyExn).
Arguments Ok {A} a.
Arguments Err {A} e.

(** Modelled from the spec: [NAVI_OPTIONS] is declared in
    [core/menus/__init__.py], which is not among the sources. The spec gives
    the tokens of each footer kind: quit-only allows q, back-only allows b,
    back+help allows b and h. *)
Definition NAVI_OPTIONS_spec : gmap FooterType (list string) :=
  {[ QUIT := ["q"]; BACK := ["b"]; BACK_HELP := ["b"; "h"] ]}.

Section Validator.

(** The navigation table the module imports. *)
Variable NAVI_OPTIONS : gmap FooterType (list string).

(** [BaseMenu.validate_user_input]. [self.options.get] fails on [None],
    and [NAVI_OPTIONS[self.footer_type]] is evaluated before the test
    that uses it, so it fails on a footer type that is not a key. *)
Definition validate_user_input (self : BaseMenu) (usr_input : string)
  : PyResult PyVal :=
  let usr_input := lower usr_input in
  match options self with
  | None => Err AttributeError
  | Some tbl =>
      let opt := default PyNone (tbl !! usr_input) in
      let is_valid_navigation :=
        bool_decide (is_Some (NAVI_OPTIONS !! footer_type self)) in
      match NAVI_OPTIONS !! footer_type self with
      | None => Err KeyError
      | Some tokens =>
          let user_navigated := bool_decide (usr_input ∈ tokens) in
          if is_valid_navigation && user_navigated then
            Ok (PyStr usr_input)
          else if is_none opt
                  || (eq_str opt "" && negb (is_none (default_option self)))
          then Ok (default_option self)
          else if negb (is_none opt) then Ok opt
          else Ok PyNone
      end
  end.

End Validator.

(** ** The terminal and the store *)

(** One event per print statement of the module. *)
Inductive Event :=
| Header                      (* print_header() *)
| MenuBody (name : string)    (* the body printed by a subclass's print_menu *)
| QuitFooter                  (* print_quit_footer() *)
| BackFooter                  (* print_back_footer() *)
| BackHelpFooter              (* print_back_help_footer() *)
| Prompt (label : string)     (* the input prompt of handle_user_input *)
| LogError (msg : string)     (* Logger.print_error *)
| LogOk (msg : string)        (* Logger.print_ok *)
| Action (f : string).        (* output of an action of a concrete menu *)

Record World := mkWorld {
  heap : gmap nat BaseMenu;
  stdin : list string;
  stdout : list Event
}.

Definition emit (e : Event) (w : World) : World :=
  mkWorld (heap w) (stdin w) (stdout w ++ [e]).

Definition set_stdin (l : list string) (w : World) : World :=
  mkWorld (heap w) l (stdout w).

Definition set_heap (h : gmap nat BaseMenu) (w : World) : World :=
  mkWorld h (stdin w) (stdout w).

(** What a call can do: return, raise, or end the process ([sys.exit]
    raises [SystemExit], which nothing in the module catches). [Stuck] is
    a reference to no object, which Python cannot produce; [OutOfFuel]
    bounds the unfolding of the loops. *)
Inductive Outcome (A : Type) :=
| Ret (a : A) (w : World)
| Raise (e : PyExn) (w : World)
| Exit (code : Z) (w : World)
| Stuck
| OutOfFuel.
Arguments Ret {A} a w.
Arguments Raise {A} e w.
Arguments Exit {A} code w.
Arguments Stuck {A}.
Arguments OutOfFuel {A}.

(** Code that runs in a world. *)
Definition M (A : Type) : Type := World -> Outcome A.

Definition bind {A B : Type} (k : A -> M B) (c : M A) : M B :=
  fun w =>
    match c w with
    | Ret a w' => k a w'
    | Raise e w' => Raise e w'
    | Exit code w' => Exit code w'
    | Stuck => Stuck
    | OutOfFuel => OutOfFuel
    end.

#[global] Instance M_ret : MRet M := fun A a w => Ret a w.
#[global] Instance M_bind : MBind M := @bind.

Definition raise {A : Type} (e : PyExn) : M A := fun w => Raise e w.

(** [print] and the Logger: one event on the terminal. *)
Definition output (e : Event) : M unit := fun w => Ret tt (emit e w).

(** [sys.exit(code)] *)
Definition sys_exit {A : Type} (code : Z) : M A := fun w => Exit code w.

(** ** Classes *)

(** What the module needs to know of a subclass of [BaseMenu]: whether it
    overrides the abstract hook [print_menu], and the attributes an instance
    has once its [__init__] (which calls [super().__init__()] first, as
    [AdvancedMenu] does) has returned. *)
Record ClassDef := mkClass {
  overrides_print_menu : bool;
  init_options : option (gmap string PyVal);
  init_default_option : PyVal;
  init_input_label_txt : string;
  init_header : bool;
  init_previous_menu : PyVal;
  init_footer_type : FooterType
}.

(** [AdvancedMenu]: [__init__] stores its [previous_menu] argument, [None]
    when called without one; every other attribute is the class default of
    [BaseMenu] ([set_options] is not called by the constructor). *)
Definition AdvancedMenu : ClassDef :=
  mkClass true None PyNone "Perform action" true PyNone BACK.

Section Menus.

Variable NAVI_OPTIONS : gmap FooterType (list string).

(** The subclasses of [BaseMenu], by name. *)
Variable classes : string -> ClassDef.

(** The actions of the concrete menus: what calling the function named
    [f] does. *)
Variable call : string -> M PyVal.

(** *** Construction *)

(** [BaseMenu.__init__] *)
Definition BaseMenu_init (c : MenuClass) : PyResult unit :=
  match c with
  | BaseMenuClass =>
      Err (NotImplementedError "BaseMenu cannot be instantiated directly.")
  | SubClass _ => Ok tt
  end.

(** A class deriving from [ABC] with an [abstractmethod] left
    unimplemented: [print_menu] is the only one. *)
Definition is_abstract (c : MenuClass) : bool :=
  match c with
  | BaseMenuClass => true
  | SubClass name => negb (overrides_print_menu (classes name))
  end.

Definition new_object (c : MenuClass) : BaseMenu :=
  match c with
  | BaseMenuClass =>
      mkMenu BaseMenuClass None PyNone "Perform action" true PyNone BACK
  | SubClass name =>
      let d := classes name in
      mkMenu c (init_options d) (init_default_option d)
             (init_input_label_txt d) (init_header d)
             (init_previous_menu d) (init_footer_type d)
  end.

(** [c()]: the instantiation check of [ABC], then [__init__]; the new
    object gets a reference no object has. *)
Definition instantiate (c : MenuClass) : M nat :=
  fun w =>
    if is_abstract c then Raise TypeError w
    else match BaseMenu_init c with
         | Err e => Raise e w
         | Ok _ =>
             let r := fresh (dom (heap w)) in
             Ret r (set_heap (<[r := new_object c]> (heap w)) w)
         end.

(** [v()] for a value [v]. *)
Definition py_call (v : PyVal) : M PyVal :=
  match v with
  | PyFunc f => call f
  | PyMenuType c => r ← instantiate c; mret (PyMenu r)
  | _ => raise TypeError
  end.

(** *** Display *)

(** [print_menu]: the subclass's body, or the abstract method of
    [BaseMenu]. *)
Definition print_menu (self : BaseMenu) : M unit :=
  match cls self with
  | SubClass name =>
      if overrides_print_menu (classes name)
      then output (MenuBody name)
      else raise (NotImplementedError
                    "Subclasses must implement the print_menu method")
  | BaseMenuClass =>
      raise (NotImplementedError
               "Subclasses must implement the print_menu method")
  end.

(** [BaseMenu.print_footer] *)
Definition print_footer (self : BaseMenu) : M unit :=
  match footer_type self with
  | QUIT => output QuitFooter
  | BACK => output BackFooter
  | BACK_HELP => output BackHelpFooter
  | OtherFooter _ =>
      raise (NotImplementedError
               "Method for printing footer not implemented.")
  end.

(** [BaseMenu.display_menu] *)
Definition display_menu (self : BaseMenu) : M unit :=
  (if header self then output Header else mret tt);;
  print_menu self;;
  print_footer self.

(** *** Input *)

(** The loop of [BaseMenu.handle_user_input], by recursion on the lines
    still to be read: [input()] raises [EOFError] when none is left. *)
Fixpoint handle_user_input_loop (self : BaseMenu) (lines : list string)
  : M PyVal :=
  fun w =>
    let w := emit (Prompt (input_label_txt self)) w in
    match lines with
    | [] => Raise EOFError (set_stdin [] w)
    | line :: rest =>
        let w := set_stdin rest w in
        let usr_input := lower line in
        match validate_user_input NAVI_OPTIONS self usr_input with
        | Err e => Raise e w
        | Ok validated_input =>
            if negb (is_none validated_input) then Ret validated_input w
            else handle_user_input_loop self rest
                   (emit (LogError "Invalid input!") w)
        end
    end.

Definition handle_user_input (self : BaseMenu) : M PyVal :=
  fun w => handle_user_input_loop self (stdin w) w.

(** *** Dispatch and the run loop *)

(** [menu.previous_menu = v] *)
Definition assign_previous_menu (r : nat) (v : PyVal) : M unit :=
  fun w =>
    match heap w !! r with
    | Some obj => Ret tt (set_heap (<[r := set_previous v obj]> (heap w)) w)
    | None => Stuck
    end.

(** [BaseMenu.navigate_to_menu], given the run loop to enter. *)
Definition navigate_to_menu_with (run : nat -> M unit)
    (self : nat) (menu : PyVal) (inst : bool) : M unit :=
  menu ← (if inst then py_call menu else mret menu);
  match menu with
  | PyMenu r => assign_previous_menu r (PyMenu self);; run r
  | _ => raise AttributeError
  end.

(** [BaseMenu.execute_option], given the run loop to enter. *)
Definition execute_option_with (run : nat -> M unit)
    (self : nat) (opt : PyVal) : M unit :=
  if is_none opt then
    raise (NotImplementedError "No implementation for None")
  else if is_menu_type opt then navigate_to_menu_with run self opt true
  else if is_menu_instance opt then
    navigate_to_menu_with run self opt false
  else if callable opt then py_call opt;; mret tt
  else mret tt.

(** [BaseMenu.run]: [fuel] bounds the number of iterations of the loop
    and the depth of nested menus. The attributes of [self] are read
    from the store at each iteration. *)
Fixpoint run (fuel : nat) (self : nat) : M unit :=
  match fuel with
  | O => fun _ => OutOfFuel
  | S fuel =>
      fun w =>
        match heap w !! self with
        | None => Stuck
        | Some m =>
            (display_menu m;;
             choice ← handle_user_input m;
             if eq_str choice "q" then
               output (LogOk "###### Happy printing!");;
               sys_exit 0
             else if eq_str choice "b" then mret tt
             else
               execute_option_with (run fuel) self choice;;
               run fuel self) w
        end
  end.

Definition execute_option (fuel : nat) : nat -> PyVal -> M unit :=
  execute_option_with (run fuel).

Definition navigate_to_menu (fuel : nat)
  : nat -> PyVal -> bool -> M unit :=
  navigate_to_menu_with (run fuel).

(** *** The quit path *)

(** [enters self opt w r w']: dispatching [opt] from the menu [self] in
    [w] enters the run loop of the sub-menu [r] in [w']: [opt] is the
    instance [r], or a class whose new instance is [r], and [w'] is the
    store once [previous_menu] has been assigned. *)
Definition enters (self : nat) (opt : PyVal) (w : World) (r : nat)
    (w' : World) : Prop :=
  exists w1,
    ((opt = PyMenu r /\ w1 = w)
     \/ (exists c, opt = PyMenuType c /\ instantiate c w = Ret r w1))
    /\ assign_previous_menu r (PyMenu self) w1 = Ret tt w'.

(** [quit_chosen fuel self w w']: in the run loop of [self] started in
    [w], the choice q is resolved, in this menu or in a sub-menu entered
    from it at any depth, possibly after other options have been executed;
    [w'] is the state once the farewell is logged. *)
Inductive quit_chosen : nat -> nat -> World -> World -> Prop :=
| quit_here fuel self m w w1 w2 :
    heap w !! self = Some m ->
    display_menu m w = Ret tt w1 ->
    handle_user_input m w1 = Ret (PyStr "q") w2 ->
    quit_chosen (S fuel) self w (emit (LogOk "###### Happy printing!") w2)
| quit_in_submenu fuel self m w w1 w2 choice r w3 w' :
    heap w !! self = Some m ->
    display_menu m w = Ret tt w1 ->
    handle_user_input m w1 = Ret choice w2 ->
    enters self choice w2 r w3 ->
    quit_chosen fuel r w3 w' ->
    quit_chosen (S fuel) self w w'
| quit_later fuel self m w w1 w2 choice w3 w' :
    heap w !! self = Some m ->
    display_menu m w = Ret tt w1 ->
    handle_user_input m w1 = Ret choice w2 ->
    choice <> PyStr "q" ->
    choice <> PyStr "b" ->
    execute_option fuel self choice w2 = Ret tt w3 ->
    quit_chosen fuel self w3 w' ->
    quit_chosen (S fuel) self w w'.

End Menus.

(** ** Concrete menus used to exercise the model *)

(** The option table [AdvancedMenu.set_options] builds. Its entries are
    [Option(method=..., menu=...)] records of [core.menus], which is not
    among the sources: objects that are neither menus nor callables. *)
Definition AdvancedMenu_options : gmap string PyVal :=
  {[ "3" := PyObj "Option(build)";
     "4" := PyObj "Option(flash)";
     "6" := PyObj "Option(get_id)" ]}.

(** An [AdvancedMenu] instance after [set_options]. *)
Definition advanced_menu : BaseMenu :=
  mkMenu (SubClass "AdvancedMenu") (Some AdvancedMenu_options) PyNone
         "Perform action" true PyNone BACK.

(** The menu of the scenarios of the spec: one action under the token 3,
    back-only footer, with or without a default option. *)
Definition build_menu (default : PyVal) : BaseMenu :=
  mkMenu (SubClass "BuildMenu") (Some {[ "3" := PyFunc "build_action" ]})
         default "Perform action" true PyNone BACK.

(** A menu whose table reuses the navigation token b and has an entry for
    the empty token. *)
Definition clash_menu (default : PyVal) : BaseMenu :=
  mkMenu (SubClass "ClashMenu")
         (Some {[ "b" := PyFunc "build_action"; "" := PyFunc "blank_action" ]})
         default "Perform action" false PyNone BACK.

(** Every class name denotes a subclass built like [AdvancedMenu]. *)
Definition demo_classes (name : string) : ClassDef := AdvancedMenu.

(** Actions that write one line and return [None]. *)
Definition demo_call (f : string) : M PyVal :=
  fun w => Ret PyNone (emit (Action f) w).

(** A menu with an empty option table and a given footer kind. *)
Definition footer_menu (kind : FooterType) : BaseMenu :=
  mkMenu (SubClass "FooterMenu") (Some ∅) PyNone "Perform action" true
         PyNone kind.

(** A store with a parent menu at 0 whose token 3 opens the menu instance
    at 1, which was built with another [previous_menu], and whose token 4
    opens a fresh [AdvancedMenu]. *)
Definition parent_menu : BaseMenu :=
  mkMenu (SubClass "MainMenu")
         (Some {[ "3" := PyMenu 1;
                  "4" := PyMenuType (SubClass "AdvancedMenu") ]})
         PyNone "Perform action" true PyNone QUIT.

Definition child_menu (kind : FooterType) : BaseMenu :=
  mkMenu (SubClass "BuildMenu") (Some {[ "1" := PyFunc "build_action" ]})
         PyNone "Perform action" false (PyMenuType (SubClass "MainMenu"))
         kind.

Definition demo_heap (kind : FooterType) : gmap nat BaseMenu :=
  {[ 0 := parent_menu; 1 := child_menu kind ]}.

(** The store once the parent has navigated into the child. *)
Definition entered_heap (kind : FooterType) : gmap nat BaseMenu :=
  {[ 0 := parent_menu; 1 := set_previous (PyMenu 0) (child_menu kind) ]}.

(** ** Further operations *)

(** [self.options = tbl], as [set_options] of a concrete menu does. *)
Definition assign_options (tbl : gmap string PyVal) (m : BaseMenu)
  : BaseMenu :=
  mkMenu (cls m) (Some tbl) (default_option m) (input_label_txt m)
         (header m) (previous_menu m) (footer_type m).

(** [AdvancedMenu.__init__(previous_menu)]: the object once the
    constructor has stored its argument. *)
Definition AdvancedMenu_init (previous_menu : PyVal) : BaseMenu :=
  mkMenu (SubClass "AdvancedMenu") None PyNone "Perform action" true
         previous_menu BACK.

(** [AdvancedMenu.set_previous_menu]. [MainMenu] is the class the method
    imports from [core.menus.main_menu], which is not among the sources. *)
Definition set_previous_menu (self : BaseMenu) (previous_menu : PyVal)
  : BaseMenu :=
  set_previous
    (if negb (is_none previous_menu) then previous_menu
     else PyMenuType (SubClass "MainMenu"))
    self.

(** [AdvancedMenu.set_options] *)
Definition set_options (self : BaseMenu) : BaseMenu :=
  assign_options AdvancedMenu_options self.

(** The state an outcome ends in, if any. *)
Definition final_world {A : Type} (o : Outcome A) : option World :=
  match o with
  | Ret _ w | Raise _ w | Exit _ w => Some w
  | Stuck | OutOfFuel => None
  end.

(** A world with every [previous_menu] blanked: what is left is all that
    code which never reads [previous_menu] can depend on. *)
Definition erase_previous (w : World) : World :=
  mkWorld (set_previous PyNone <$> heap w) (stdin w) (stdout w).

Definition erase_outcome {A : Type} (o : Outcome A) : Outcome A :=
  match o with
  | Ret a w => Ret a (erase_previous w)
  | Raise e w => Raise e (erase_previous w)
  | Exit code w => Exit code (erase_previous w)
  | Stuck => Stuck
  | OutOfFuel => OutOfFuel
  end.

(** What [handle_user_input] writes for the lines it rejects. *)
Definition rejections (label : string) (rejected : list string)
  : list Event :=
  flat_map (fun _ => [Prompt label; LogError "Invalid input!"]) rejected.

(** The exceptions the menu code raises by itself when a menu is run:
    those of the display, of the input loop and of the instantiation of a
    menu class. *)
Definition core_exceptions : list PyExn :=
  [ NotImplementedError "Subclasses must implement the print_menu method";
    NotImplementedError "Method for printing footer not implemented.";
    EOFError; AttributeError; KeyError; TypeError ].

(** [keeps_menus w w']: every menu object of [w] is still there in [w'],
    unchanged but for its [previous_menu]. *)
Definition keeps_menus (w w' : World) : Prop :=
  forall r m,
    heap w !! r = Some m ->
    exists m',
      heap w' !! r = Some m'
      /\ set_previous PyNone m' = set_previous PyNone m.

(** * Properties *)

(** ** Lower-casing *)

Lemma lower_ascii_idemp (c : ascii) : lower_ascii (lower_ascii c) = lower_ascii c.
Proof. by destruct c as [[] [] [] [] [] [] [] []]. Qed.

Lemma lower_idemp (s : string) : lower (lower s) = lower s.
Proof.
  induction s as [|c s IH]; [done|].
  cbn [lower]. by rewrite lower_ascii_idemp, IH.
Qed.

(** ** The validator *)

Section ValidatorProperties.

Variable NAVI_OPTIONS : gmap FooterType (list string).

(** The validator once its two lookups have succeeded. *)
Lemma validate_unfold (m : BaseMenu) tbl tokens raw :
  options m = Some tbl ->
  NAVI_OPTIONS !! footer_type m = Some tokens ->
  validate_user_input NAVI_OPTIONS m raw =
    let opt := default PyNone (tbl !! lower raw) in
    if bool_decide (lower raw ∈ tokens) then Ok (PyStr (lower raw))
    else if is_none opt
            || (eq_str opt "" && negb (is_none (default_option m)))
    then Ok (default_option m)
    else if negb (is_none opt) then Ok opt
    else Ok PyNone.
Proof.
  intros Ho Hn. unfold validate_user_input. rewrite Ho, Hn. cbn zeta.
  rewrite bool_decide_eq_true_2 by eauto. done.
Qed.

(** An input the validator does not recognise yields the default option,
    which is [None] when none is configured. *)
Lemma validate_unmatched (m : BaseMenu) tbl tokens raw :
  options m = Some tbl ->
  NAVI_OPTIONS !! footer_type m = Some tokens ->
  lower raw ∉ tokens ->
  tbl !! lower raw = None ->
  validate_user_input NAVI_OPTIONS m raw = Ok (default_option m).
Proof.
  intros Ho Hn Ht Hk. rewrite (validate_unfold m tbl tokens) by done.
  cbn zeta. rewrite bool_decide_eq_false_2 by done. by rewrite Hk.
Qed.

(** C1: when the lower-cased input is a navigation token of the menu's
    footer kind, [validate_user_input] returns that token as a string,
    whatever the option table holds under the same token. *)
Theorem validate_user_input_navigation_first
    (m : BaseMenu) tbl tokens raw :
  options m = Some tbl ->
  NAVI_OPTIONS !! footer_type m = Some tokens ->
  lower raw ∈ tokens ->
  validate_user_input NAVI_OPTIONS m raw = Ok (PyStr (lower raw)).
Proof.
  intros Ho Hn Ht. rewrite (validate_unfold m tbl tokens) by done.
  cbn zeta. by rewrite bool_decide_eq_true_2.
Qed.

(** C2, amended: on a menu for which the empty string is not a navigation
    token and whose option table has no entry for the empty string, the
    empty input yields the default option when one is configured and no
    match when none is. *)
Theorem validate_user_input_empty_default (m : BaseMenu) tbl tokens :
  options m = Some tbl ->
  NAVI_OPTIONS !! footer_type m = Some tokens ->
  "" ∉ tokens ->
  tbl !! "" = None ->
  (default_option m <> PyNone ->
   validate_user_input NAVI_OPTIONS m "" = Ok (default_option m))
  /\ (default_option m = PyNone ->
      validate_user_input NAVI_OPTIONS m "" = Ok PyNone).
Proof.
  intros Ho Hn Ht Hk.
  assert (validate_user_input NAVI_OPTIONS m "" = Ok (default_option m))
    as Hv by by apply (validate_unmatched m tbl tokens).
  split; [done|]. intros Hd. by rewrite Hv, Hd.
Qed.

End ValidatorProperties.

(** C1 on a table that maps the navigation token b to an action. *)
Lemma validate_user_input_navigation_first_witness :
  validate_user_input NAVI_OPTIONS_spec (clash_menu PyNone) "B"
  = Ok (PyStr "b").
Proof.
  apply (validate_user_input_navigation_first NAVI_OPTIONS_spec
           (clash_menu PyNone)
           {[ "b" := PyFunc "build_action"; "" := PyFunc "blank_action" ]}
           ["b"] "B").
  - reflexivity.
  - vm_compute. reflexivity.
  - vm_compute. left.
Defined.

(** C2 as stated fails on a table with an entry for the empty string: the
    entry is returned, with a default configured and without. *)
Lemma validate_user_input_empty_default_counterexample :
  NAVI_OPTIONS_spec !! footer_type (clash_menu (PyFunc "help_action"))
  = Some ["b"]
  /\ ("" ∉ ["b"])
  /\ default_option (clash_menu (PyFunc "help_action")) = PyFunc "help_action"
  /\ validate_user_input NAVI_OPTIONS_spec (clash_menu (PyFunc "help_action")) ""
     = Ok (PyFunc "blank_action")
  /\ validate_user_input NAVI_OPTIONS_spec (clash_menu (PyFunc "help_action")) ""
     <> Ok (default_option (clash_menu (PyFunc "help_action")))
  /\ validate_user_input NAVI_OPTIONS_spec (clash_menu PyNone) "" <> Ok PyNone.
Proof.
  split; [by vm_compute|].
  split; [by intros ?%list_elem_of_singleton|].
  split; [done|].
  split; [by vm_compute|].
  split; by vm_compute.
Qed.

Lemma validate_user_input_empty_default_witness :
  validate_user_input NAVI_OPTIONS_spec (build_menu (PyFunc "help_action")) ""
  = Ok (PyFunc "help_action")
  /\ validate_user_input NAVI_OPTIONS_spec (build_menu PyNone) "" = Ok PyNone.
Proof.
  split.
  - apply (validate_user_input_empty_default NAVI_OPTIONS_spec
             (build_menu (PyFunc "help_action"))
             {[ "3" := PyFunc "build_action" ]} ["b"]).
    + reflexivity.
    + vm_compute. reflexivity.
    + intros H. apply list_elem_of_singleton in H. discriminate H.
    + vm_compute. reflexivity.
    + discriminate.
  - apply (validate_user_input_empty_default NAVI_OPTIONS_spec
             (build_menu PyNone)
             {[ "3" := PyFunc "build_action" ]} ["b"]).
    + reflexivity.
    + vm_compute. reflexivity.
    + intros H. apply list_elem_of_singleton in H. discriminate H.
    + vm_compute. reflexivity.
    + reflexivity.
Defined.

(** ** Reading input *)

Section InputProperties.

Variable NAVI_OPTIONS : gmap FooterType (list string).

Local Abbreviation validate := (validate_user_input NAVI_OPTIONS).
Local Abbreviation handle := (handle_user_input NAVI_OPTIONS).
Local Abbreviation handle_loop := (handle_user_input_loop NAVI_OPTIONS).

(** One iteration of the loop of [handle_user_input]. *)
Lemma handle_user_input_step (m : BaseMenu) line rest w :
  stdin w = line :: rest ->
  handle m w =
    let w1 := set_stdin rest (emit (Prompt (input_label_txt m)) w) in
    match validate m (lower line) with
    | Err e => Raise e w1
    | Ok v =>
        if negb (is_none v) then Ret v w1
        else handle m (emit (LogError "Invalid input!") w1)
    end.
Proof. intros Hs. unfold handle_user_input. rewrite Hs. reflexivity. Qed.

Lemma validate_lower (m : BaseMenu) line :
  validate m (lower line) = validate m line.
Proof. unfold validate_user_input. by rewrite lower_idemp. Qed.

(** What [handle_user_input] returns was resolved by the validator from
    one of the lines read, and is not [None]; the store is untouched. *)
Lemma handle_user_input_loop_Ret (m : BaseMenu) lines w v w' :
  handle_loop m lines w = Ret v w' ->
  v <> PyNone
  /\ (exists line, line ∈ lines /\ validate m line = Ok v)
  /\ heap w' = heap w.
Proof.
  revert w. induction lines as [|line rest IH]; intros w; [done|].
  cbn [handle_user_input_loop]. rewrite validate_lower.
  destruct (validate m line) as [u|e] eqn:Hv; [|done].
  destruct (is_none u) eqn:Hu; cbn [negb].
  - intros (Hne & (l & Hl & Hvl) & Hh)%IH. split; [done|]. split.
    + exists l. split; [by right|done].
    + by rewrite Hh.
  - intros [= -> <-]. split; [by intros ->|]. split; [|done].
    exists line. split; [by left|done].
Qed.

Lemma handle_user_input_loop_no_exit (m : BaseMenu) lines w code w' :
  handle_loop m lines w <> Exit code w'.
Proof.
  revert w. induction lines as [|line rest IH]; intros w; [done|].
  cbn [handle_user_input_loop].
  destruct (validate m (lower line)) as [u|e]; [|done].
  destruct (negb (is_none u)); [done|]. apply IH.
Qed.

(** C3, amended: on a menu with no default option configured, a non-empty
    input that is neither a navigation token of the footer kind nor a key
    of the option table yields no match, and [handle_user_input] then logs
    an error and prompts again instead of returning. *)
Theorem handle_user_input_unmatched (m : BaseMenu) tbl tokens line rest w :
  options m = Some tbl ->
  NAVI_OPTIONS !! footer_type m = Some tokens ->
  default_option m = PyNone ->
  line <> "" ->
  lower line ∉ tokens ->
  tbl !! lower line = None ->
  stdin w = line :: rest ->
  validate m line = Ok PyNone
  /\ handle m w
     = handle m
         (emit (LogError "Invalid input!")
            (set_stdin rest (emit (Prompt (input_label_txt m)) w))).
Proof.
  intros Ho Hn Hd _ Ht Hk Hs.
  assert (validate m line = Ok PyNone) as Hv.
  { rewrite <-Hd. by apply (validate_unmatched NAVI_OPTIONS m tbl tokens). }
  split; [done|].
  by rewrite (handle_user_input_step m line rest w Hs), validate_lower, Hv.
Qed.

End InputProperties.

(** C3 as stated fails when a default option is configured: the unmatched
    input x resolves to the default, and [handle_user_input] returns it
    without logging an error. *)
Lemma handle_user_input_unmatched_counterexample :
  "x" <> ""
  /\ NAVI_OPTIONS_spec !! footer_type (build_menu (PyFunc "help_action"))
     = Some ["b"]
  /\ (lower "x" ∉ ["b"])
  /\ ({[ "3" := PyFunc "build_action" ]} : gmap string PyVal) !! lower "x" = None
  /\ validate_user_input NAVI_OPTIONS_spec
       (build_menu (PyFunc "help_action")) "x" = Ok (PyFunc "help_action")
  /\ validate_user_input NAVI_OPTIONS_spec
       (build_menu (PyFunc "help_action")) "x" <> Ok PyNone
  /\ handle_user_input NAVI_OPTIONS_spec (build_menu (PyFunc "help_action"))
       (mkWorld ∅ ["x"; "3"] [])
     = Ret (PyFunc "help_action") (mkWorld ∅ ["3"] [Prompt "Perform action"]).
Proof.
  split; [done|].
  split; [by vm_compute|].
  split; [by intros ?%list_elem_of_singleton|].
  split; [by vm_compute|].
  split; [by vm_compute|].
  split; by vm_compute.
Qed.

(** The first step of the scenario of the spec: x on the build menu. *)
Lemma handle_user_input_unmatched_witness :
  validate_user_input NAVI_OPTIONS_spec (build_menu PyNone) "x" = Ok PyNone
  /\ handle_user_input NAVI_OPTIONS_spec (build_menu PyNone)
       (mkWorld ∅ ["x"; "3"] [])
     = handle_user_input NAVI_OPTIONS_spec (build_menu PyNone)
         (mkWorld ∅ ["3"]
            [Prompt "Perform action"; LogError "Invalid input!"]).
Proof.
  apply (handle_user_input_unmatched NAVI_OPTIONS_spec (build_menu PyNone)
           {[ "3" := PyFunc "build_action" ]} ["b"] "x" ["3"]
           (mkWorld ∅ ["x"; "3"] [])).
  - reflexivity.
  - vm_compute. reflexivity.
  - reflexivity.
  - discriminate.
  - intros H. apply list_elem_of_singleton in H. discriminate H.
  - vm_compute. reflexivity.
  - reflexivity.
Defined.

(** ** Footer, construction and dispatch *)

(** C9: [print_footer] prints the quit footer, the back footer or the
    back+help footer, and nothing else, when the footer kind is [QUIT],
    [BACK] or [BACK_HELP]; for any other footer kind it raises
    [NotImplementedError] and prints nothing. *)
Theorem print_footer_by_kind (m : BaseMenu) (w : World) :
  (footer_type m = QUIT ->
   print_footer m w = Ret tt (mkWorld (heap w) (stdin w) (stdout w ++ [QuitFooter])))
  /\ (footer_type m = BACK ->
      print_footer m w = Ret tt (mkWorld (heap w) (stdin w) (stdout w ++ [BackFooter])))
  /\ (footer_type m = BACK_HELP ->
      print_footer m w
      = Ret tt (mkWorld (heap w) (stdin w) (stdout w ++ [BackHelpFooter])))
  /\ (forall tag, footer_type m = OtherFooter tag ->
      print_footer m w
      = Raise (NotImplementedError "Method for printing footer not implemented.") w).
Proof.
  unfold print_footer. repeat split; intros; by simplify_eq/=; rewrite ?H.
Qed.

Section MenuProperties.

Variable NAVI_OPTIONS : gmap FooterType (list string).
Variable classes : string -> ClassDef.
Variable call : string -> M PyVal.

Local Abbreviation run_ := (run NAVI_OPTIONS classes call).
Local Abbreviation execute_option_ := (execute_option NAVI_OPTIONS classes call).
Local Abbreviation navigate_to_menu_ := (navigate_to_menu NAVI_OPTIONS classes call).

(** C10: an option that is not [None] and is neither a menu class, nor a
    menu instance, nor a callable is ignored by [execute_option]: it returns
    normally and leaves the store and the terminal as they were. *)
Theorem execute_option_ignores_other fuel (self : nat) (v : PyVal) (w : World) :
  v <> PyNone ->
  is_menu_type v = false ->
  is_menu_instance v = false ->
  callable v = false ->
  execute_option_ fuel self v w = Ret tt w.
Proof.
  intros Hn Ht Hi Hc. unfold execute_option, execute_option_with.
  destruct v; try done.
Qed.

(** C8: constructing [BaseMenu] itself raises and creates no object (the
    abstract-class check of [ABC] raises before [__init__], whose own guard
    raises [NotImplementedError]); constructing a subclass that implements
    [print_menu] returns a new object of that class. *)
Theorem instantiate_abstract_base (w : World) :
  (exists e, instantiate classes BaseMenuClass w = Raise e w)
  /\ BaseMenu_init BaseMenuClass
     = Err (NotImplementedError "BaseMenu cannot be instantiated directly.")
  /\ (forall name,
        overrides_print_menu (classes name) = true ->
        exists r obj,
          instantiate classes (SubClass name) w
          = Ret r (set_heap (<[r := obj]> (heap w)) w)
          /\ heap w !! r = None
          /\ cls obj = SubClass name).
Proof.
  split; [by exists TypeError|]. split; [done|].
  intros name Hp. exists (fresh (dom (heap w))), (new_object classes (SubClass name)).
  unfold instantiate, is_abstract. rewrite Hp. cbn.
  split; [done|]. split; [|done].
  apply not_elem_of_dom, is_fresh.
Qed.

(** C7: [execute_option] raises [NotImplementedError] on [None], and no
    option delivered by [handle_user_input] is [None]: each is a result the
    validator resolved from a line that was read. *)
Theorem execute_option_none_unreachable :
  (forall fuel self w,
     execute_option_ fuel self PyNone w
     = Raise (NotImplementedError "No implementation for None") w)
  /\ (forall (m : BaseMenu) w v w',
        handle_user_input NAVI_OPTIONS m w = Ret v w' ->
        is_none v = false
        /\ exists line, validate_user_input NAVI_OPTIONS m line = Ok v).
Proof.
  split; [done|]. intros m w v w' H.
  apply handle_user_input_loop_Ret in H as (Hv & (line & _ & Hl) & _).
  split; [by destruct v|]. by exists line.
Qed.

(** *** Sequencing *)

Lemma mbind_Ret {A B : Type} (c : M A) (k : A -> M B) w a w1 :
  c w = Ret a w1 -> (c ≫= k) w = k a w1.
Proof. intros H. unfold mbind, M_bind, bind. by rewrite H. Qed.

Lemma mbind_Exit_inv {A B : Type} (c : M A) (k : A -> M B) w code w' :
  (c ≫= k) w = Exit code w' ->
  c w = Exit code w' \/ exists a w1, c w = Ret a w1 /\ k a w1 = Exit code w'.
Proof.
  unfold mbind, M_bind, bind. destruct (c w) as [a w1| | | |]; try done.
  - intros H. right. by exists a, w1.
  - intros [= -> ->]. by left.
Qed.

(** *** The store during display and input *)

Lemma display_menu_Ret (m : BaseMenu) w u w1 :
  display_menu classes m w = Ret u w1 ->
  heap w1 = heap w /\ stdin w1 = stdin w.
Proof.
  unfold display_menu, print_menu, print_footer, mbind, M_bind, bind.
  destruct (header m), (cls m) as [|name]; cbn; try done;
    destruct (overrides_print_menu (classes name)); cbn; try done;
    destruct (footer_type m); cbn; try done; by intros [= <- <-].
Qed.

Lemma display_menu_no_exit (m : BaseMenu) w code w' :
  display_menu classes m w <> Exit code w'.
Proof.
  unfold display_menu, print_menu, print_footer, mbind, M_bind, bind.
  destruct (header m), (cls m) as [|name]; cbn; try done;
    destruct (overrides_print_menu (classes name)); cbn; try done;
    by destruct (footer_type m).
Qed.

Lemma run_unfold fuel (self : nat) (m : BaseMenu) w :
  heap w !! self = Some m ->
  run_ (S fuel) self w
  = (display_menu classes m;;
     choice ← handle_user_input NAVI_OPTIONS m;
     if eq_str choice "q" then
       output (LogOk "###### Happy printing!");; sys_exit 0
     else if eq_str choice "b" then mret tt
     else execute_option_ fuel self choice;; run_ fuel self) w.
Proof. intros H. cbn [run]. by rewrite H. Qed.

Lemma eq_str_false (v : PyVal) (s : string) :
  v <> PyStr s -> eq_str v s = false.
Proof.
  intros H. destruct v; try done. cbn.
  apply bool_decide_eq_false_2. congruence.
Qed.

(** *** Navigation *)

(** C4: when [execute_option] dispatches a menu instance, or a menu class
    that it instantiates, [navigate_to_menu] enters the sub-menu's run loop
    in a store where the sub-menu's [previous_menu] is the calling
    instance, whatever it was before, and nothing else has changed. *)
Theorem navigate_to_menu_stamps_caller fuel (self : nat) (w : World) :
  (forall r obj,
     heap w !! r = Some obj ->
     let w' := set_heap (<[r := set_previous (PyMenu self) obj]> (heap w)) w in
     navigate_to_menu_ fuel self (PyMenu r) false w = run_ fuel r w'
     /\ execute_option_ fuel self (PyMenu r) w = run_ fuel r w'
     /\ previous_menu <$> heap w' !! r = Some (PyMenu self))
  /\ (forall c r w1,
        instantiate classes c w = Ret r w1 ->
        exists obj,
          heap w1 !! r = Some obj
          /\ let w' :=
               set_heap (<[r := set_previous (PyMenu self) obj]> (heap w1)) w1 in
             navigate_to_menu_ fuel self (PyMenuType c) true w = run_ fuel r w'
             /\ execute_option_ fuel self (PyMenuType c) w = run_ fuel r w'
             /\ previous_menu <$> heap w' !! r = Some (PyMenu self)).
Proof.
  split.
  - intros r obj Hr w'.
    assert (navigate_to_menu_ fuel self (PyMenu r) false w = run_ fuel r w')
      as Hnav.
    { unfold navigate_to_menu, navigate_to_menu_with, mbind, M_bind, bind,
        mret, M_ret, assign_previous_menu. by rewrite Hr. }
    split; [done|]. split; [done|].
    subst w'. cbn. by rewrite lookup_insert_eq.
  - intros c r w1 Hi.
    assert (heap w1 !! r = Some (new_object classes c)) as Hr.
    { revert Hi. unfold instantiate.
      destruct (is_abstract classes c); [done|].
      destruct (BaseMenu_init c); [|done].
      intros [= <- <-]. cbn. by rewrite lookup_insert_eq. }
    exists (new_object classes c). split; [done|]. intros w'.
    assert (navigate_to_menu_ fuel self (PyMenuType c) true w = run_ fuel r w')
      as Hnav.
    { unfold navigate_to_menu, navigate_to_menu_with, py_call, mbind, M_bind,
        bind, mret, M_ret, assign_previous_menu. by rewrite Hi, Hr. }
    split; [done|]. split; [done|].
    subst w'. cbn. by rewrite lookup_insert_eq.
Qed.

(** *** Leaving the loop *)

Lemma instantiate_no_exit (c : MenuClass) w code w' :
  instantiate classes c w <> Exit code w'.
Proof.
  unfold instantiate. destruct (is_abstract classes c); [done|].
  by destruct (BaseMenu_init c).
Qed.

(** Entering a sub-menu is what [execute_option] does with a menu. *)
Lemma enters_execute_option fuel (self : nat) (v : PyVal) w r w' :
  enters classes self v w r w' ->
  v <> PyStr "q" /\ v <> PyStr "b"
  /\ execute_option_ fuel self v w = run_ fuel r w'.
Proof.
  intros (w1 & [[-> ->]|(c & -> & Hc)] & Ha); (split; [done|split; [done|]]);
    unfold execute_option, execute_option_with, navigate_to_menu_with, py_call,
      mbind, M_bind, bind, mret, M_ret; cbn.
  - by rewrite Ha.
  - by rewrite Hc, Ha.
Qed.

(** An exit out of [execute_option] comes from the run loop of a sub-menu
    it entered, when the actions do not exit by themselves. *)
Lemma execute_option_Exit_inv fuel (self : nat) (v : PyVal) w code w' :
  (forall f w code w', call f w <> Exit code w') ->
  execute_option_ fuel self v w = Exit code w' ->
  exists r w3, enters classes self v w r w3 /\ run_ fuel r w3 = Exit code w'.
Proof.
  intros Hcall. unfold execute_option, execute_option_with.
  destruct v; cbn [is_none is_menu_type is_menu_instance callable]; try done.
  - intros [H|(u & w1 & _ & H)]%mbind_Exit_inv; [|done].
    by apply Hcall in H.
  - unfold navigate_to_menu_with.
    intros [H|(menu & w1 & Hm & H)]%mbind_Exit_inv.
    { cbn in H. apply mbind_Exit_inv in H as [H|(r & w1 & _ & H)]; [|done].
      by apply instantiate_no_exit in H. }
    cbn in Hm. unfold mbind, M_bind, bind in Hm.
    destruct (instantiate classes c w) as [r w2| | | |] eqn:Hi; try done.
    injection Hm as <- <-.
    apply mbind_Exit_inv in H as [H|([] & w3 & Ha & H)].
    { unfold assign_previous_menu in H. by destruct (heap w2 !! r). }
    exists r, w3. split; [|done]. exists w2. split; [|done].
    right. by exists c.
  - unfold navigate_to_menu_with.
    intros [H|(menu & w1 & [= <- <-] & H)]%mbind_Exit_inv; [done|].
    apply mbind_Exit_inv in H as [H|([] & w3 & Ha & H)].
    { unfold assign_previous_menu in H. by destruct (heap w !! r). }
    exists r, w3. split; [|done]. exists w. split; [|done]. by left.
Qed.

(** The quit path ends the process: at whatever depth q is chosen, the
    outermost run loop exits with status 0, the farewell written last. *)
Lemma quit_chosen_run fuel (self : nat) w w' :
  quit_chosen NAVI_OPTIONS classes call fuel self w w' ->
  run_ fuel self w = Exit 0 w'
  /\ exists w2, w' = emit (LogOk "###### Happy printing!") w2.
Proof.
  induction 1 as [fuel self m w w1 w2 Hm Hd Hh
                 |fuel self m w w1 w2 choice r w3 w' Hm Hd Hh He _ [IH Hw]
                 |fuel self m w w1 w2 choice w3 w' Hm Hd Hh Hq Hb He _ [IH Hw]].
  - split; [|by eexists]. rewrite (run_unfold fuel self m w Hm).
    by rewrite (mbind_Ret _ _ _ _ _ Hd), (mbind_Ret _ _ _ _ _ Hh).
  - split; [|done]. rewrite (run_unfold fuel self m w Hm).
    rewrite (mbind_Ret _ _ _ _ _ Hd), (mbind_Ret _ _ _ _ _ Hh).
    apply (enters_execute_option fuel) in He as (Hq & Hb & He).
    rewrite (eq_str_false _ _ Hq), (eq_str_false _ _ Hb).
    unfold mbind, M_bind, bind. by rewrite He, IH.
  - split; [|done]. rewrite (run_unfold fuel self m w Hm).
    rewrite (mbind_Ret _ _ _ _ _ Hd), (mbind_Ret _ _ _ _ _ Hh).
    rewrite (eq_str_false _ _ Hq), (eq_str_false _ _ Hb).
    unfold mbind, M_bind, bind. by rewrite He.
Qed.

Lemma eq_str_true (v : PyVal) (s : string) :
  eq_str v s = true -> v = PyStr s.
Proof.
  destruct v; try done. cbn. by intros ->%bool_decide_eq_true.
Qed.

Lemma eq_str_false_inv (v : PyVal) (s : string) :
  eq_str v s = false -> v <> PyStr s.
Proof. intros H ->. cbn in H. by rewrite bool_decide_eq_true_2 in H. Qed.

(** No other path ends the process: an exit out of [run] is the quit
    path, taken in this menu or in a sub-menu. *)
Lemma run_Exit_quit_chosen :
  (forall f w code w', call f w <> Exit code w') ->
  forall fuel self w code w',
    run_ fuel self w = Exit code w' ->
    code = 0%Z /\ quit_chosen NAVI_OPTIONS classes call fuel self w w'.
Proof.
  intros Hcall. induction fuel as [|fuel IH]; intros self w code w'; [done|].
  cbn [run]. destruct (heap w !! self) as [m|] eqn:Hm; [|done].
  intros [H|([] & w1 & Hd & H)]%mbind_Exit_inv;
    [by apply display_menu_no_exit in H|].
  apply mbind_Exit_inv in H as [H|(choice & w2 & Hh & H)];
    [by apply handle_user_input_loop_no_exit in H|].
  destruct (eq_str choice "q") eqn:Hq.
  { apply eq_str_true in Hq as ->.
    apply mbind_Exit_inv in H as [H|(? & ? & [= <- <-] & [= <- <-])]; [done|].
    split; [done|]. by eapply quit_here. }
  destruct (eq_str choice "b") eqn:Hb; [done|].
  apply eq_str_false_inv in Hq, Hb.
  apply mbind_Exit_inv in H as [H|([] & w3 & He & H)].
  - apply execute_option_Exit_inv in H as (r & w3 & He & H); [|done].
    apply IH in H as [-> H]. split; [done|]. by eapply quit_in_submenu.
  - apply IH in H as [-> H]. split; [done|]. by eapply quit_later.
Qed.

(** C5: when the choice resolved in a run loop is q, in the menu that was
    run or in a sub-menu entered from it at any depth, the farewell is
    logged and the whole process ends with status 0; and, the actions of the
    concrete menus not ending the process themselves, every exit out of
    [run] is this quit path. *)
Theorem run_quit_exits :
  (forall fuel self w w',
     quit_chosen NAVI_OPTIONS classes call fuel self w w' ->
     run_ fuel self w = Exit 0 w'
     /\ exists w2, w' = emit (LogOk "###### Happy printing!") w2)
  /\ ((forall f w code w', call f w <> Exit code w') ->
      forall fuel self w code w',
        run_ fuel self w = Exit code w' ->
        code = 0%Z /\ quit_chosen NAVI_OPTIONS classes call fuel self w w').
Proof.
  split.
  - intros fuel self w w'. apply quit_chosen_run.
  - apply run_Exit_quit_chosen.
Qed.

(** *** Fuel *)

(** A result reached with some fuel is reached with any larger fuel. *)
Lemma navigate_to_menu_with_fuel (runf runf' : nat -> M unit) :
  (forall r w, runf r w <> OutOfFuel -> runf' r w = runf r w) ->
  forall self v inst w,
    navigate_to_menu_with classes call runf self v inst w <> OutOfFuel ->
    navigate_to_menu_with classes call runf' self v inst w
    = navigate_to_menu_with classes call runf self v inst w.
Proof.
  intros Hr self v inst w. unfold navigate_to_menu_with, mbind, M_bind, bind.
  destruct ((if inst then py_call classes call v else mret v) w)
    as [menu w1| | | |]; try done.
  destruct menu; try done.
  destruct (assign_previous_menu r (PyMenu self) w1); try done. apply Hr.
Qed.

Lemma execute_option_with_fuel (runf runf' : nat -> M unit) :
  (forall r w, runf r w <> OutOfFuel -> runf' r w = runf r w) ->
  forall self v w,
    execute_option_with classes call runf self v w <> OutOfFuel ->
    execute_option_with classes call runf' self v w
    = execute_option_with classes call runf self v w.
Proof.
  intros Hr self v w. unfold execute_option_with.
  destruct v; cbn [is_none is_menu_type is_menu_instance callable]; try done;
    by apply navigate_to_menu_with_fuel.
Qed.

Lemma run_S fuel (self : nat) w :
  run_ (S fuel) self w
  = match heap w !! self with
    | None => Stuck
    | Some m =>
        (display_menu classes m;;
         choice ← handle_user_input NAVI_OPTIONS m;
         if eq_str choice "q" then
           output (LogOk "###### Happy printing!");; sys_exit 0
         else if eq_str choice "b" then mret tt
         else execute_option_ fuel self choice;; run_ fuel self) w
    end.
Proof. reflexivity. Qed.

Lemma run_fuel_S fuel (self : nat) w :
  run_ fuel self w <> OutOfFuel -> run_ (S fuel) self w = run_ fuel self w.
Proof.
  revert self w. induction fuel as [|fuel IH]; intros self w; [done|].
  rewrite (run_S (S fuel) self w), (run_S fuel self w).
  destruct (heap w !! self) as [m|]; [|done].
  unfold execute_option, mbind, M_bind, bind.
  destruct (display_menu classes m w) as [u w1| | | |]; try done.
  destruct (handle_user_input NAVI_OPTIONS m w1) as [choice w2| | | |];
    try done.
  destruct (eq_str choice "q"); [done|].
  destruct (eq_str choice "b"); [done|].
  intros H.
  rewrite (execute_option_with_fuel (run_ fuel) (run_ (S fuel)) IH).
  - destruct (execute_option_with classes call (run_ fuel) self choice w2)
      as [u' w3| | | |]; try done. by apply IH.
  - by destruct (execute_option_with classes call (run_ fuel) self choice w2).
Qed.

Lemma run_fuel_mono fuel extra (self : nat) w :
  run_ fuel self w <> OutOfFuel ->
  run_ (extra + fuel) self w = run_ fuel self w.
Proof.
  intros H. induction extra as [|extra IH]; [done|].
  rewrite <-IH. apply run_fuel_S. by rewrite IH.
Qed.

(** C6: when the choice resolved in the run loop is b, [run] returns to
    its caller with the store as it was: nothing is dispatched; on any other
    choice than b and q, [run] executes it by [execute_option] and, once
    that returns, runs the loop of the same menu again. *)
Theorem run_back_returns fuel (self : nat) (m : BaseMenu) (w w1 w2 : World)
    (choice : PyVal) :
  heap w !! self = Some m ->
  display_menu classes m w = Ret tt w1 ->
  handle_user_input NAVI_OPTIONS m w1 = Ret choice w2 ->
  (choice = PyStr "b" ->
   run_ (S fuel) self w = Ret tt w2 /\ heap w2 = heap w)
  /\ (choice <> PyStr "q" -> choice <> PyStr "b" ->
      run_ (S fuel) self w
      = (execute_option_ fuel self choice;; run_ fuel self) w2
      /\ forall u w3,
          execute_option_ fuel self choice w2 = Ret u w3 ->
          run_ (S fuel) self w = run_ fuel self w3).
Proof.
  intros Hm Hd Hh. rewrite (run_unfold fuel self m w Hm).
  rewrite (mbind_Ret _ _ _ _ _ Hd), (mbind_Ret _ _ _ _ _ Hh).
  split.
  - intros ->. split; [done|].
    apply handle_user_input_loop_Ret in Hh as (_ & _ & ->).
    by apply display_menu_Ret in Hd as [-> _].
  - intros Hq Hb. rewrite (eq_str_false _ _ Hq), (eq_str_false _ _ Hb).
    split; [done|]. intros u w3 He.
    unfold mbind, M_bind, bind. by rewrite He.
Qed.

End MenuProperties.

(** ** The properties on the concrete menus *)

Lemma print_footer_by_kind_witness :
  print_footer (footer_menu QUIT) (mkWorld ∅ [] [Header])
  = Ret tt (mkWorld ∅ [] [Header; QuitFooter])
  /\ print_footer (footer_menu BACK) (mkWorld ∅ [] [Header])
     = Ret tt (mkWorld ∅ [] [Header; BackFooter])
  /\ print_footer (footer_menu BACK_HELP) (mkWorld ∅ [] [Header])
     = Ret tt (mkWorld ∅ [] [Header; BackHelpFooter])
  /\ print_footer (footer_menu (OtherFooter "BLANK")) (mkWorld ∅ [] [Header])
     = Raise (NotImplementedError "Method for printing footer not implemented.")
         (mkWorld ∅ [] [Header]).
Proof.
  split; [|split; [|split]].
  - apply (print_footer_by_kind (footer_menu QUIT) (mkWorld ∅ [] [Header])).
    reflexivity.
  - apply (print_footer_by_kind (footer_menu BACK) (mkWorld ∅ [] [Header])).
    reflexivity.
  - apply (print_footer_by_kind (footer_menu BACK_HELP)
             (mkWorld ∅ [] [Header])).
    reflexivity.
  - apply (print_footer_by_kind (footer_menu (OtherFooter "BLANK"))
             (mkWorld ∅ [] [Header]) : _ /\ _ /\ _ /\ _) with "BLANK".
    reflexivity.
Defined.

(** The entries of [AdvancedMenu.set_options] and the help token h are
    ignored by [execute_option]. *)
Lemma execute_option_ignores_other_witness :
  execute_option NAVI_OPTIONS_spec demo_classes demo_call 1 0
    (PyObj "Option(build)") (mkWorld {[ 0 := advanced_menu ]} [] [])
  = Ret tt (mkWorld {[ 0 := advanced_menu ]} [] []).
Proof.
  apply (execute_option_ignores_other NAVI_OPTIONS_spec demo_classes demo_call
           1 0 (PyObj "Option(build)") (mkWorld {[ 0 := advanced_menu ]} [] []));
    [discriminate | reflexivity | reflexivity | reflexivity].
Defined.

Lemma instantiate_abstract_base_witness :
  exists r obj,
    instantiate demo_classes (SubClass "AdvancedMenu")
      (mkWorld (demo_heap BACK) [] [])
    = Ret r (set_heap (<[r := obj]> (demo_heap BACK))
               (mkWorld (demo_heap BACK) [] []))
    /\ demo_heap BACK !! r = None
    /\ cls obj = SubClass "AdvancedMenu".
Proof.
  apply (proj2 (proj2 (instantiate_abstract_base demo_classes
                         (mkWorld (demo_heap BACK) [] [])))
           "AdvancedMenu").
  reflexivity.
Defined.

Lemma execute_option_none_unreachable_witness :
  is_none (PyFunc "build_action") = false
  /\ exists line,
      validate_user_input NAVI_OPTIONS_spec (build_menu PyNone) line
      = Ok (PyFunc "build_action").
Proof.
  apply (proj2 (execute_option_none_unreachable NAVI_OPTIONS_spec
                  demo_classes demo_call)
           (build_menu PyNone) (mkWorld ∅ ["x"; "3"] [])
           (PyFunc "build_action")
           (mkWorld ∅ []
              [Prompt "Perform action"; LogError "Invalid input!";
               Prompt "Perform action"])).
  vm_compute. reflexivity.
Defined.

(** The child at 1 was built with [MainMenu] as its previous menu; entered
    from the parent at 0, it runs with the parent instance instead. A
    fresh [AdvancedMenu], built with [None], is stamped alike. *)
Lemma navigate_to_menu_stamps_caller_witness :
  (previous_menu (child_menu BACK) = PyMenuType (SubClass "MainMenu")
   /\ navigate_to_menu NAVI_OPTIONS_spec demo_classes demo_call 2 0
        (PyMenu 1) false (mkWorld (demo_heap BACK) ["b"] [])
      = run NAVI_OPTIONS_spec demo_classes demo_call 2 1
          (mkWorld (entered_heap BACK) ["b"] [])
   /\ previous_menu <$> entered_heap BACK !! 1 = Some (PyMenu 0))
  /\ exists obj,
      (<[2 := new_object demo_classes (SubClass "AdvancedMenu")]>
         (demo_heap BACK)) !! 2 = Some obj
      /\ execute_option NAVI_OPTIONS_spec demo_classes demo_call 2 0
           (PyMenuType (SubClass "AdvancedMenu"))
           (mkWorld (demo_heap BACK) ["b"] [])
         = run NAVI_OPTIONS_spec demo_classes demo_call 2 2
             (mkWorld
                (<[2 := set_previous (PyMenu 0) obj]>
                   (<[2 := new_object demo_classes (SubClass "AdvancedMenu")]>
                      (demo_heap BACK)))
                ["b"] []).
Proof.
  split.
  - split; [reflexivity|].
    destruct (proj1 (navigate_to_menu_stamps_caller NAVI_OPTIONS_spec
                       demo_classes demo_call 2 0
                       (mkWorld (demo_heap BACK) ["b"] []))
                1 (child_menu BACK)) as (Hn & _ & Hp).
    + vm_compute. reflexivity.
    + split; [exact Hn | exact Hp].
  - destruct (proj2 (navigate_to_menu_stamps_caller NAVI_OPTIONS_spec
                       demo_classes demo_call 2 0
                       (mkWorld (demo_heap BACK) ["b"] []))
                (SubClass "AdvancedMenu") 2
                (mkWorld
                   (<[2 := new_object demo_classes (SubClass "AdvancedMenu")]>
                      (demo_heap BACK))
                   ["b"] []))
      as (obj & Ho & _ & He & _).
    + vm_compute. reflexivity.
    + exists obj. split; [exact Ho | exact He].
Defined.

(** Quit in the child, entered from the parent through token 3, ends the
    run loop of the parent as well, with nothing written after the
    farewell; and that exit is the quit path. *)
Lemma run_quit_exits_witness :
  (run NAVI_OPTIONS_spec demo_classes demo_call 2 0
     (mkWorld (demo_heap QUIT) ["3"; "q"] [])
   = Exit 0
       (emit (LogOk "###### Happy printing!")
          (mkWorld (entered_heap QUIT) []
             [Header; MenuBody "MainMenu"; QuitFooter; Prompt "Perform action";
              MenuBody "BuildMenu"; QuitFooter; Prompt "Perform action"]))
   /\ exists w2,
       emit (LogOk "###### Happy printing!")
         (mkWorld (entered_heap QUIT) []
            [Header; MenuBody "MainMenu"; QuitFooter; Prompt "Perform action";
             MenuBody "BuildMenu"; QuitFooter; Prompt "Perform action"])
       = emit (LogOk "###### Happy printing!") w2)
  /\ (0 = 0)%Z
     /\ quit_chosen NAVI_OPTIONS_spec demo_classes demo_call 1 0
          (mkWorld (demo_heap QUIT) ["q"] [])
          (mkWorld (demo_heap QUIT) []
             [Header; MenuBody "MainMenu"; QuitFooter; Prompt "Perform action";
              LogOk "###### Happy printing!"]).
Proof.
  split.
  - apply (proj1 (run_quit_exits NAVI_OPTIONS_spec demo_classes demo_call)).
    apply (quit_in_submenu NAVI_OPTIONS_spec demo_classes demo_call 1 0
             parent_menu (mkWorld (demo_heap QUIT) ["3"; "q"] [])
             (mkWorld (demo_heap QUIT) ["3"; "q"]
                [Header; MenuBody "MainMenu"; QuitFooter])
             (mkWorld (demo_heap QUIT) ["q"]
                [Header; MenuBody "MainMenu"; QuitFooter;
                 Prompt "Perform action"])
             (PyMenu 1) 1
             (mkWorld (entered_heap QUIT) ["q"]
                [Header; MenuBody "MainMenu"; QuitFooter;
                 Prompt "Perform action"])).
    + vm_compute. reflexivity.
    + vm_compute. reflexivity.
    + vm_compute. reflexivity.
    + eexists. split; [left; split; reflexivity|]. vm_compute. reflexivity.
    + apply (quit_here NAVI_OPTIONS_spec demo_classes demo_call 0 1
               (set_previous (PyMenu 0) (child_menu QUIT))
               (mkWorld (entered_heap QUIT) ["q"]
                  [Header; MenuBody "MainMenu"; QuitFooter;
                   Prompt "Perform action"])
               (mkWorld (entered_heap QUIT) ["q"]
                  [Header; MenuBody "MainMenu"; QuitFooter;
                   Prompt "Perform action"; MenuBody "BuildMenu"; QuitFooter])
               (mkWorld (entered_heap QUIT) []
                  [Header; MenuBody "MainMenu"; QuitFooter;
                   Prompt "Perform action"; MenuBody "BuildMenu"; QuitFooter;
                   Prompt "Perform action"])).
      * vm_compute. reflexivity.
      * vm_compute. reflexivity.
      * vm_compute. reflexivity.
  - apply (proj2 (run_quit_exits NAVI_OPTIONS_spec demo_classes demo_call)).
    + intros f w code w'. discriminate.
    + vm_compute. reflexivity.
Defined.

(** Back in the child returns; the action under token 1 is executed and
    the loop of the child goes on. *)
Lemma run_back_returns_witness :
  (run NAVI_OPTIONS_spec demo_classes demo_call 1 1
     (mkWorld (demo_heap BACK) ["b"] [])
   = Ret tt
       (mkWorld (demo_heap BACK) []
          [MenuBody "BuildMenu"; BackFooter; Prompt "Perform action"])
   /\ demo_heap BACK = demo_heap BACK)
  /\ run NAVI_OPTIONS_spec demo_classes demo_call 2 1
       (mkWorld (demo_heap BACK) ["1"; "b"] [])
     = run NAVI_OPTIONS_spec demo_classes demo_call 1 1
         (mkWorld (demo_heap BACK) ["b"]
            [MenuBody "BuildMenu"; BackFooter; Prompt "Perform action";
             Action "build_action"]).
Proof.
  destruct (run_back_returns NAVI_OPTIONS_spec demo_classes demo_call 0 1
              (child_menu BACK) (mkWorld (demo_heap BACK) ["b"] [])
              (mkWorld (demo_heap BACK) ["b"]
                 [MenuBody "BuildMenu"; BackFooter])
              (mkWorld (demo_heap BACK) []
                 [MenuBody "BuildMenu"; BackFooter; Prompt "Perform action"])
              (PyStr "b"))
    as (Hback & _);
    [vm_compute; reflexivity | vm_compute; reflexivity
    | vm_compute; reflexivity |].
  destruct (run_back_returns NAVI_OPTIONS_spec demo_classes demo_call 1 1
              (child_menu BACK) (mkWorld (demo_heap BACK) ["1"; "b"] [])
              (mkWorld (demo_heap BACK) ["1"; "b"]
                 [MenuBody "BuildMenu"; BackFooter])
              (mkWorld (demo_heap BACK) ["b"]
                 [MenuBody "BuildMenu"; BackFooter; Prompt "Perform action"])
              (PyFunc "build_action"))
    as (_ & Hloop);
    [vm_compute; reflexivity | vm_compute; reflexivity
    | vm_compute; reflexivity |].
  split.
  - apply Hback. reflexivity.
  - apply Hloop with tt; [discriminate | discriminate |].
    vm_compute. reflexivity.
Defined.

(** ** The scenarios of the spec *)

(** Option table with the build action under 3, back-only footer, inputs
    x then 3 (then b): an error is logged and the prompt repeated, the
    action is run, and the same menu is displayed again. *)
Example scenario_invalid_then_build :
  run NAVI_OPTIONS_spec demo_classes demo_call 3 0
    (mkWorld {[ 0 := build_menu PyNone ]} ["x"; "3"; "b"] [])
  = Ret tt
      (mkWorld {[ 0 := build_menu PyNone ]} []
         [Header; MenuBody "BuildMenu"; BackFooter;
          Prompt "Perform action"; LogError "Invalid input!";
          Prompt "Perform action"; Action "build_action";
          Header; MenuBody "BuildMenu"; BackFooter;
          Prompt "Perform action"]).
Proof. vm_compute. reflexivity. Qed.

(** The empty input on a menu with a default option resolves to it, and no
    error is logged. *)
Example scenario_empty_input_default :
  handle_user_input NAVI_OPTIONS_spec (build_menu (PyFunc "help_action"))
    (mkWorld ∅ [""] [])
  = Ret (PyFunc "help_action") (mkWorld ∅ [] [Prompt "Perform action"]).
Proof. vm_compute. reflexivity. Qed.

(** b is not honoured on a quit-only menu whose table has no entry for
    it. *)
Example scenario_back_on_quit_footer :
  validate_user_input NAVI_OPTIONS_spec (footer_menu QUIT) "b" = Ok PyNone
  /\ validate_user_input NAVI_OPTIONS_spec (footer_menu QUIT) "Q"
     = Ok (PyStr "q").
Proof. split; vm_compute; reflexivity. Qed.

(** A menu whose option table was never populated, as an [AdvancedMenu]
    fresh from its constructor, cannot validate any input. *)
Example scenario_options_not_populated :
  validate_user_input NAVI_OPTIONS_spec
    (new_object demo_classes (SubClass "AdvancedMenu")) "b"
  = Err AttributeError.
Proof. reflexivity. Qed.

(** * Further properties *)

(** ** What the validator can return *)

Section ValidatorResults.

Variable NAVI_OPTIONS : gmap FooterType (list string).

Local Abbreviation validate := (validate_user_input NAVI_OPTIONS).

(** The validator does not read [previous_menu]. *)
Lemma validate_set_previous (v : PyVal) (m : BaseMenu) raw :
  validate (set_previous v m) raw = validate m raw.
Proof. reflexivity. Qed.

(** Every result of [validate_user_input] is the lower-cased input as a
    navigation token of the footer kind, the default option, or the entry
    the option table holds under the lower-cased input: nothing else is
    ever returned. *)
Theorem validate_user_input_result (m : BaseMenu) tbl raw v :
  options m = Some tbl ->
  validate m raw = Ok v ->
  (exists tokens,
      NAVI_OPTIONS !! footer_type m = Some tokens
      /\ lower raw ∈ tokens /\ v = PyStr (lower raw))
  \/ v = default_option m
  \/ (tbl !! lower raw = Some v /\ v <> PyNone).
Proof.
  intros Ho. destruct (NAVI_OPTIONS !! footer_type m) as [tokens|] eqn:Hn.
  - rewrite (validate_unfold NAVI_OPTIONS m tbl tokens) by done. cbn zeta.
    destruct (decide (lower raw ∈ tokens)) as [Hin|Hin].
    + rewrite bool_decide_eq_true_2 by done. intros [= <-]. left. by exists tokens.
    + rewrite bool_decide_eq_false_2 by done.
      destruct (tbl !! lower raw) as [u|] eqn:Hk; cbn [from_option id].
      * destruct (is_none u || eq_str u "" && negb (is_none (default_option m)))
          eqn:Hc; [intros [= <-]; right; by left|].
        destruct u; try done; cbn; intros [= <-]; right; right; by split.
      * cbn. intros [= <-]. right. by left.
  - unfold validate_user_input. by rewrite Ho, Hn.
Qed.

(** An input that is not a navigation token and whose lower-cased form has
    an entry in the option table -- other than [None] and the empty string
    -- resolves to that entry, with or without a default option. *)
Theorem validate_user_input_table_entry (m : BaseMenu) tbl tokens raw v :
  options m = Some tbl ->
  NAVI_OPTIONS !! footer_type m = Some tokens ->
  lower raw ∉ tokens ->
  tbl !! lower raw = Some v ->
  v <> PyNone ->
  v <> PyStr "" ->
  validate m raw = Ok v.
Proof.
  intros Ho Hn Ht Hk Hv He.
  rewrite (validate_unfold NAVI_OPTIONS m tbl tokens) by done. cbn zeta.
  rewrite bool_decide_eq_false_2 by done. rewrite Hk. cbn [from_option id].
  rewrite (eq_str_false _ _ He). by destruct v.
Qed.

(** An entry that holds [None] counts as no entry; an entry that holds the
    empty string gives way to the default option when one is configured and
    is returned as it is when none is. *)
Theorem validate_user_input_blank_entry (m : BaseMenu) tbl tokens raw :
  options m = Some tbl ->
  NAVI_OPTIONS !! footer_type m = Some tokens ->
  lower raw ∉ tokens ->
  (tbl !! lower raw = Some PyNone -> validate m raw = Ok (default_option m))
  /\ (tbl !! lower raw = Some (PyStr "") ->
      validate m raw
      = Ok (if is_none (default_option m) then PyStr ""
            else default_option m)).
Proof.
  intros Ho Hn Ht.
  rewrite (validate_unfold NAVI_OPTIONS m tbl tokens) by done. cbn zeta.
  rewrite bool_decide_eq_false_2 by done.
  split; intros ->; cbn; [done|]. by destruct (default_option m).
Qed.

(** Keys are looked up in lower case only: an entry stored under a key
    that is not its own lower-casing can never be selected, so adding one
    changes nothing for any input. *)
Theorem validate_user_input_uppercase_key (m : BaseMenu) tbl key v raw :
  options m = Some tbl ->
  lower key <> key ->
  validate (assign_options (<[key := v]> tbl) m) raw = validate m raw.
Proof.
  intros Ho Hkey. unfold validate_user_input. cbn [options assign_options
    footer_type default_option]. rewrite Ho.
  assert (lower raw <> key) as Hne.
  { intros <-. by rewrite lower_idemp in Hkey. }
  by rewrite lookup_insert_ne.
Qed.

(** [validate_user_input] fails in two situations only, whatever the input:
    with [AttributeError] when the option table was never populated, and
    with [KeyError] when the table is populated and the footer kind is not
    a key of [NAVI_OPTIONS]. *)
Theorem validate_user_input_errors (m : BaseMenu) raw e :
  validate m raw = Err e <->
  (options m = None /\ e = AttributeError)
  \/ (is_Some (options m) /\ NAVI_OPTIONS !! footer_type m = None
      /\ e = KeyError).
Proof.
  unfold validate_user_input.
  destruct (options m) as [tbl|];
    [destruct (NAVI_OPTIONS !! footer_type m) as [tokens|]|].
  - split.
    + cbn zeta.
      repeat match goal with |- context [if ?b then _ else _] =>
                               destruct b end; done.
    + intros [[? _]|(_ & ? & _)]; done.
  - split.
    + intros [= <-]. right. by split; [eexists|].
    + by intros [[? _]|(_ & _ & ->)].
  - split.
    + intros [= <-]. by left.
    + intros [[_ ->]|([? ?] & _)]; done.
Qed.

End ValidatorResults.

Lemma validate_user_input_result_witness :
  (exists tokens,
      NAVI_OPTIONS_spec !! footer_type (build_menu PyNone) = Some tokens
      /\ lower "3" ∈ tokens /\ PyFunc "build_action" = PyStr (lower "3"))
  \/ PyFunc "build_action" = default_option (build_menu PyNone)
  \/ (({[ "3" := PyFunc "build_action" ]} : gmap string PyVal) !! lower "3"
      = Some (PyFunc "build_action")
      /\ PyFunc "build_action" <> PyNone).
Proof.
  apply (validate_user_input_result NAVI_OPTIONS_spec (build_menu PyNone)
           {[ "3" := PyFunc "build_action" ]} "3" (PyFunc "build_action")).
  - reflexivity.
  - vm_compute. reflexivity.
Defined.

Lemma validate_user_input_table_entry_witness :
  validate_user_input NAVI_OPTIONS_spec (build_menu (PyFunc "help_action")) "3"
  = Ok (PyFunc "build_action").
Proof.
  apply (validate_user_input_table_entry NAVI_OPTIONS_spec
           (build_menu (PyFunc "help_action"))
           {[ "3" := PyFunc "build_action" ]} ["b"] "3"
           (PyFunc "build_action")).
  - reflexivity.
  - vm_compute. reflexivity.
  - intros H. apply list_elem_of_singleton in H. discriminate H.
  - vm_compute. reflexivity.
  - discriminate.
  - discriminate.
Defined.

Lemma validate_user_input_blank_entry_witness :
  validate_user_input NAVI_OPTIONS_spec
    (assign_options {[ "5" := PyNone ]} (build_menu (PyFunc "help_action"))) "5"
  = Ok (PyFunc "help_action")
  /\ validate_user_input NAVI_OPTIONS_spec
       (assign_options {[ "5" := PyStr "" ]} (build_menu PyNone)) "5"
     = Ok (PyStr "").
Proof.
  destruct (validate_user_input_blank_entry NAVI_OPTIONS_spec
              (assign_options {[ "5" := PyNone ]}
                 (build_menu (PyFunc "help_action")))
              {[ "5" := PyNone ]} ["b"] "5") as [Hnone _].
  { reflexivity. }
  { vm_compute. reflexivity. }
  { intros H. apply list_elem_of_singleton in H. discriminate H. }
  destruct (validate_user_input_blank_entry NAVI_OPTIONS_spec
              (assign_options {[ "5" := PyStr "" ]} (build_menu PyNone))
              {[ "5" := PyStr "" ]} ["b"] "5") as [_ Hblank].
  { reflexivity. }
  { vm_compute. reflexivity. }
  { intros H. apply list_elem_of_singleton in H. discriminate H. }
  split.
  - apply Hnone. vm_compute. reflexivity.
  - apply Hblank. vm_compute. reflexivity.
Defined.

(** The key B2 cannot be reached: every input is lower-cased first. *)
Lemma validate_user_input_uppercase_key_witness :
  validate_user_input NAVI_OPTIONS_spec
    (assign_options
       (<["B2" := PyFunc "flash_action"]> {[ "3" := PyFunc "build_action" ]})
       (build_menu PyNone)) "B2"
  = validate_user_input NAVI_OPTIONS_spec (build_menu PyNone) "B2".
Proof.
  apply (validate_user_input_uppercase_key NAVI_OPTIONS_spec
           (build_menu PyNone) {[ "3" := PyFunc "build_action" ]} "B2"
           (PyFunc "flash_action") "B2").
  - reflexivity.
  - discriminate.
Defined.

Lemma validate_user_input_errors_witness :
  validate_user_input NAVI_OPTIONS_spec (AdvancedMenu_init PyNone) "3"
  = Err AttributeError
  /\ validate_user_input NAVI_OPTIONS_spec (footer_menu (OtherFooter "BLANK")) "3"
     = Err KeyError.
Proof.
  split.
  - apply (proj2 (validate_user_input_errors NAVI_OPTIONS_spec
                    (AdvancedMenu_init PyNone) "3" AttributeError)).
    left. split; reflexivity.
  - apply (proj2 (validate_user_input_errors NAVI_OPTIONS_spec
                    (footer_menu (OtherFooter "BLANK")) "3" KeyError)).
    right. split; [eexists; reflexivity|]. split; [vm_compute|]; reflexivity.
Defined.

(** ** What the input loop reads and writes *)

Section InputLoop.

Variable NAVI_OPTIONS : gmap FooterType (list string).

Local Abbreviation validate := (validate_user_input NAVI_OPTIONS).
Local Abbreviation handle := (handle_user_input NAVI_OPTIONS).

(** Lines the validator does not match are read, answered with the prompt
    and the error message, and skipped. *)
Lemma handle_user_input_skip (m : BaseMenu) (rejected rest : list string) w :
  stdin w = (rejected ++ rest)%list ->
  Forall (fun line => validate m line = Ok PyNone) rejected ->
  handle m w
  = handle m (mkWorld (heap w) rest
                (stdout w ++ rejections (input_label_txt m) rejected)%list).
Proof.
  revert w. induction rejected as [|line rejected IH]; intros w Hs Hr.
  - cbn in *. rewrite app_nil_r. destruct w; cbn in *. by subst.
  - apply Forall_cons in Hr as [Hl Hr].
    rewrite (handle_user_input_step NAVI_OPTIONS m line (rejected ++ rest)%list w Hs).
    rewrite validate_lower, Hl. cbn zeta. cbn [is_none negb].
    rewrite IH; [|reflexivity|done].
    cbn [heap stdout emit set_stdin rejections flat_map].
    by rewrite <-!app_assoc.
Qed.

(** The input loop ends with every line read: each [Ret] has consumed at
    least one line, and leaves the store alone. *)
Lemma handle_user_input_Ret_shorter (m : BaseMenu) w v w' :
  handle m w = Ret v w' ->
  List.length (stdin w') < List.length (stdin w) /\ heap w' = heap w.
Proof.
  unfold handle_user_input. generalize (stdin w) as lines. intros lines.
  revert w. induction lines as [|line rest IH]; intros w; [done|].
  cbn [handle_user_input_loop].
  destruct (validate m (lower line)) as [u|e]; [|done].
  destruct (negb (is_none u)).
  - intros [= <- <-]. cbn. split; [lia|done].
  - intros H. apply IH in H as [H1 H2]. cbn in *. split; [lia|done].
Qed.

(** [handle_user_input] returns the result of the first line the
    validator resolves: the lines before it are each answered with the
    prompt and the error message, the lines after it are left unread, and
    the store is untouched. *)
Theorem handle_user_input_first_valid (m : BaseMenu)
    (rejected : list string) line rest v w :
  stdin w = (rejected ++ line :: rest)%list ->
  Forall (fun l => validate m l = Ok PyNone) rejected ->
  validate m line = Ok v ->
  v <> PyNone ->
  handle m w
  = Ret v (mkWorld (heap w) rest
             (stdout w ++ rejections (input_label_txt m) rejected
                ++ [Prompt (input_label_txt m)])%list).
Proof.
  intros Hs Hr Hv Hne. rewrite (handle_user_input_skip m _ _ w Hs Hr).
  rewrite (handle_user_input_step NAVI_OPTIONS m line rest) by done.
  rewrite validate_lower, Hv. cbn zeta.
  destruct v; try done; unfold set_stdin, emit; cbn;
    by rewrite <-app_assoc.
Qed.

(** When no pending line is resolved, [handle_user_input] answers each with
    the prompt and the error message, prompts once more and raises
    [EOFError]: it never returns without a valid input. *)
Theorem handle_user_input_exhausted (m : BaseMenu) w :
  Forall (fun l => validate m l = Ok PyNone) (stdin w) ->
  handle m w
  = Raise EOFError
      (mkWorld (heap w) []
         (stdout w ++ rejections (input_label_txt m) (stdin w)
            ++ [Prompt (input_label_txt m)])%list).
Proof.
  intros Hr.
  rewrite (handle_user_input_skip m (stdin w) [] w) by by rewrite ?app_nil_r.
  unfold handle_user_input. cbn. unfold set_stdin, emit. cbn.
  by rewrite <-app_assoc.
Qed.

(** An exception of the validator leaves the input loop at once: the line
    that caused it has been read, the prompt written, and no error message
    is logged for it. *)
Theorem handle_user_input_validator_error (m : BaseMenu)
    (rejected : list string) line rest e w :
  stdin w = (rejected ++ line :: rest)%list ->
  Forall (fun l => validate m l = Ok PyNone) rejected ->
  validate m line = Err e ->
  handle m w
  = Raise e (mkWorld (heap w) rest
               (stdout w ++ rejections (input_label_txt m) rejected
                  ++ [Prompt (input_label_txt m)])%list).
Proof.
  intros Hs Hr Hv. rewrite (handle_user_input_skip m _ _ w Hs Hr).
  rewrite (handle_user_input_step NAVI_OPTIONS m line rest) by done.
  rewrite validate_lower, Hv. unfold set_stdin, emit. cbn.
  by rewrite <-app_assoc.
Qed.

End InputLoop.

Lemma handle_user_input_first_valid_witness :
  handle_user_input NAVI_OPTIONS_spec (build_menu PyNone)
    (mkWorld ∅ ["x"; "Q"; "3"; "b"] [Header])
  = Ret (PyFunc "build_action")
      (mkWorld ∅ ["b"]
         [Header; Prompt "Perform action"; LogError "Invalid input!";
          Prompt "Perform action"; LogError "Invalid input!";
          Prompt "Perform action"]).
Proof.
  apply (handle_user_input_first_valid NAVI_OPTIONS_spec (build_menu PyNone)
           ["x"; "Q"] "3" ["b"] (PyFunc "build_action")
           (mkWorld ∅ ["x"; "Q"; "3"; "b"] [Header])).
  - reflexivity.
  - repeat constructor; vm_compute; reflexivity.
  - vm_compute. reflexivity.
  - discriminate.
Defined.

Lemma handle_user_input_exhausted_witness :
  handle_user_input NAVI_OPTIONS_spec (build_menu PyNone)
    (mkWorld ∅ ["x"; "Q"] [])
  = Raise EOFError
      (mkWorld ∅ []
         [Prompt "Perform action"; LogError "Invalid input!";
          Prompt "Perform action"; LogError "Invalid input!";
          Prompt "Perform action"]).
Proof.
  apply (handle_user_input_exhausted NAVI_OPTIONS_spec (build_menu PyNone)
           (mkWorld ∅ ["x"; "Q"] [])).
  repeat constructor; vm_compute; reflexivity.
Defined.

Lemma handle_user_input_validator_error_witness :
  handle_user_input NAVI_OPTIONS_spec (AdvancedMenu_init PyNone)
    (mkWorld ∅ ["3"; "b"] [])
  = Raise AttributeError (mkWorld ∅ ["b"] [Prompt "Perform action"]).
Proof.
  apply (handle_user_input_validator_error NAVI_OPTIONS_spec
           (AdvancedMenu_init PyNone) [] "3" ["b"] AttributeError
           (mkWorld ∅ ["3"; "b"] [])).
  - reflexivity.
  - constructor.
  - reflexivity.
Defined.

(** ** What a display writes *)

Section Display.

Variable classes : string -> ClassDef.

(** [display_menu] writes the header banner if the menu has one, then the
    body of the menu, then the footer of its kind, in this order and nothing
    else; it reads no input and changes no menu. *)
Theorem display_menu_output (m : BaseMenu) name (w : World) :
  cls m = SubClass name ->
  overrides_print_menu (classes name) = true ->
  (forall tag, footer_type m <> OtherFooter tag) ->
  display_menu classes m w
  = Ret tt
      (mkWorld (heap w) (stdin w)
         (stdout w ++ (if header m then [Header] else [])
            ++ [MenuBody name;
                match footer_type m with
                | QUIT => QuitFooter
                | BACK => BackFooter
                | _ => BackHelpFooter
                end])%list).
Proof.
  intros Hc Hp Hf.
  unfold display_menu, print_menu, print_footer, mbind, M_bind, bind, output,
    mret, M_ret, emit.
  rewrite Hc, Hp.
  destruct (header m), (footer_type m) as [| | |tag]; cbn;
    try (by destruct (Hf tag)); by rewrite <-?app_assoc, ?app_nil_r.
Qed.

(** [display_menu] raises only once part of the screen is written: a
    footer kind that is not recognised raises [NotImplementedError] after the
    header and the body; a class without [print_menu] raises it after the
    header, and no footer is written. *)
Theorem display_menu_partial_output (m : BaseMenu) (w : World) :
  (forall name tag,
     cls m = SubClass name ->
     overrides_print_menu (classes name) = true ->
     footer_type m = OtherFooter tag ->
     display_menu classes m w
     = Raise (NotImplementedError "Method for printing footer not implemented.")
         (mkWorld (heap w) (stdin w)
            (stdout w ++ (if header m then [Header] else [])
               ++ [MenuBody name])%list))
  /\ (cls m = BaseMenuClass
      \/ (exists name, cls m = SubClass name
                       /\ overrides_print_menu (classes name) = false) ->
      display_menu classes m w
      = Raise (NotImplementedError
                 "Subclasses must implement the print_menu method")
          (mkWorld (heap w) (stdin w)
             (stdout w ++ (if header m then [Header] else []))%list)).
Proof.
  unfold display_menu, print_menu, print_footer, mbind, M_bind, bind, output,
    mret, M_ret, emit.
  split.
  - intros name tag Hc Hp Hf. rewrite Hc, Hp, Hf.
    destruct (header m); cbn; by rewrite <-?app_assoc, ?app_nil_r.
  - intros [Hc|(name & Hc & Hp)]; rewrite Hc, ?Hp;
      destruct (header m); cbn; rewrite ?app_nil_r; by destruct w.
Qed.

End Display.

Lemma display_menu_output_witness :
  display_menu demo_classes (child_menu BACK_HELP) (mkWorld ∅ ["b"] [])
  = Ret tt (mkWorld ∅ ["b"] [MenuBody "BuildMenu"; BackHelpFooter])
  /\ display_menu demo_classes parent_menu (mkWorld ∅ ["b"] [])
     = Ret tt
         (mkWorld ∅ ["b"] [Header; MenuBody "MainMenu"; QuitFooter]).
Proof.
  split.
  - apply (display_menu_output demo_classes (child_menu BACK_HELP)
             "BuildMenu" (mkWorld ∅ ["b"] []));
      [reflexivity | reflexivity | discriminate].
  - apply (display_menu_output demo_classes parent_menu
             "MainMenu" (mkWorld ∅ ["b"] []));
      [reflexivity | reflexivity | discriminate].
Defined.

Lemma display_menu_partial_output_witness :
  display_menu demo_classes (footer_menu (OtherFooter "BLANK"))
    (mkWorld ∅ [] [])
  = Raise (NotImplementedError "Method for printing footer not implemented.")
      (mkWorld ∅ [] [Header; MenuBody "FooterMenu"])
  /\ display_menu demo_classes
       (mkMenu BaseMenuClass (Some ∅) PyNone "Perform action" true PyNone BACK)
       (mkWorld ∅ [] [])
     = Raise (NotImplementedError
                "Subclasses must implement the print_menu method")
         (mkWorld ∅ [] [Header]).
Proof.
  split.
  - apply (proj1 (display_menu_partial_output demo_classes
                    (footer_menu (OtherFooter "BLANK")) (mkWorld ∅ [] []))
             "FooterMenu" "BLANK"); reflexivity.
  - apply (proj2 (display_menu_partial_output demo_classes
                    (mkMenu BaseMenuClass (Some ∅) PyNone "Perform action"
                       true PyNone BACK)
                    (mkWorld ∅ [] []))).
    left. reflexivity.
Defined.

(** ** How the run loop ends *)

Section RunLoop.

Variable NAVI_OPTIONS : gmap FooterType (list string).
Variable classes : string -> ClassDef.
Variable call : string -> M PyVal.

Local Abbreviation run_ := (run NAVI_OPTIONS classes call).
Local Abbreviation execute_option_ :=
  (execute_option NAVI_OPTIONS classes call).

Lemma mbind_Ret_inv {A B : Type} (c : M A) (k : A -> M B) w b w' :
  (c ≫= k) w = Ret b w' ->
  exists a w1, c w = Ret a w1 /\ k a w1 = Ret b w'.
Proof.
  unfold mbind, M_bind, bind. destruct (c w) as [a w1| | | |]; try done.
  intros H. by exists a, w1.
Qed.

Lemma mbind_Raise_inv {A B : Type} (c : M A) (k : A -> M B) w e w' :
  (c ≫= k) w = Raise e w' ->
  c w = Raise e w' \/ exists a w1, c w = Ret a w1 /\ k a w1 = Raise e w'.
Proof.
  unfold mbind, M_bind, bind. destruct (c w) as [a w1| | | |]; try done.
  - intros H. right. by exists a, w1.
  - intros [= -> ->]. by left.
Qed.

(** [run] returns to its caller only through the choice b: the state it
    returns is the state in which the input loop of this very menu has just
    resolved b, after a display of this menu. *)
Theorem run_returns_only_on_back fuel (self : nat) w u w' :
  run_ fuel self w = Ret u w' ->
  exists m w0 w1,
    heap w0 !! self = Some m
    /\ display_menu classes m w0 = Ret tt w1
    /\ handle_user_input NAVI_OPTIONS m w1 = Ret (PyStr "b") w'.
Proof.
  revert w. induction fuel as [|fuel IH]; intros w; [done|].
  rewrite run_S. destruct (heap w !! self) as [m|] eqn:Hm; [|done].
  intros ([] & w1 & Hd & H)%mbind_Ret_inv.
  apply mbind_Ret_inv in H as (choice & w2 & Hh & H).
  destruct (eq_str choice "q") eqn:Hq.
  { by apply mbind_Ret_inv in H as (? & ? & _ & ?). }
  destruct (eq_str choice "b") eqn:Hb.
  { apply eq_str_true in Hb as ->. injection H as _ <-. by exists m, w, w1. }
  apply mbind_Ret_inv in H as (? & w3 & _ & H). by apply IH in H.
Qed.

End RunLoop.

Lemma run_returns_only_on_back_witness :
  exists m w0 w1,
    heap w0 !! 1 = Some m
    /\ display_menu demo_classes m w0 = Ret tt w1
    /\ handle_user_input NAVI_OPTIONS_spec m w1
       = Ret (PyStr "b")
           (mkWorld (demo_heap BACK) []
              [MenuBody "BuildMenu"; BackFooter; Prompt "Perform action";
               Action "build_action"; MenuBody "BuildMenu"; BackFooter;
               Prompt "Perform action"]).
Proof.
  apply (run_returns_only_on_back NAVI_OPTIONS_spec demo_classes demo_call
           3 1 (mkWorld (demo_heap BACK) ["1"; "b"] []) tt).
  vm_compute. reflexivity.
Defined.

(** ** The exceptions of the run loop *)

Ltac in_core_exceptions :=
  unfold core_exceptions;
  repeat first [apply list_elem_of_here | apply list_elem_of_further].

Section RunErrors.

Variable NAVI_OPTIONS : gmap FooterType (list string).
Variable classes : string -> ClassDef.
Variable call : string -> M PyVal.

Local Abbreviation run_ := (run NAVI_OPTIONS classes call).

Lemma validate_user_input_Err (m : BaseMenu) raw e :
  validate_user_input NAVI_OPTIONS m raw = Err e ->
  e = AttributeError \/ e = KeyError.
Proof.
  unfold validate_user_input. destruct (options m); [|intros [= <-]; by left].
  destruct (NAVI_OPTIONS !! footer_type m); [|intros [= <-]; by right].
  cbn zeta.
  repeat match goal with |- context [if ?b then _ else _] => destruct b end;
    done.
Qed.

Lemma handle_user_input_loop_Raise (m : BaseMenu) lines w e w' :
  handle_user_input_loop NAVI_OPTIONS m lines w = Raise e w' ->
  e ∈ core_exceptions.
Proof.
  revert w. induction lines as [|line rest IH]; intros w.
  - intros [= <- _]. in_core_exceptions.
  - cbn [handle_user_input_loop].
    destruct (validate_user_input NAVI_OPTIONS m (lower line)) as [u|e0] eqn:Hv.
    + destruct (negb (is_none u)); [done|]. apply IH.
    + intros [= <- _]. apply validate_user_input_Err in Hv as [->| ->];
        in_core_exceptions.
Qed.

Lemma display_menu_Raise (m : BaseMenu) w e w' :
  display_menu classes m w = Raise e w' -> e ∈ core_exceptions.
Proof.
  unfold display_menu, print_menu, print_footer, mbind, M_bind, bind.
  destruct (header m), (cls m) as [|name]; cbn;
    try (intros [= <- _]; in_core_exceptions);
    destruct (overrides_print_menu (classes name)); cbn;
    try (intros [= <- _]; in_core_exceptions);
    destruct (footer_type m); cbn; try done;
    intros [= <- _]; in_core_exceptions.
Qed.

Lemma instantiate_Raise (c : MenuClass) w e w' :
  instantiate classes c w = Raise e w' -> e = TypeError.
Proof.
  unfold instantiate. destruct c as [|name]; cbn.
  - by intros [= <- _].
  - destruct (negb (overrides_print_menu (classes name))); [|done].
    by intros [= <- _].
Qed.

Lemma execute_option_with_Raise (runf : nat -> M unit) (P : PyExn -> Prop) :
  (forall f w e w', call f w = Raise e w' -> P e) ->
  (forall r w e w', runf r w = Raise e w' -> P e \/ e ∈ core_exceptions) ->
  forall self v w e w',
    v <> PyNone ->
    execute_option_with classes call runf self v w = Raise e w' ->
    P e \/ e ∈ core_exceptions.
Proof.
  intros Hcall Hrun self v w e w' Hv. unfold execute_option_with.
  destruct v; cbn [is_none is_menu_type is_menu_instance callable]; try done.
  - intros [H|(u & w1 & _ & H)]%mbind_Raise_inv; [|done].
    left. by eapply Hcall.
  - unfold navigate_to_menu_with.
    intros [H|(menu & w1 & Hm & H)]%mbind_Raise_inv.
    { cbn in H. apply mbind_Raise_inv in H as [H|(r & w1 & _ & H)]; [|done].
      apply instantiate_Raise in H as ->. right.
      in_core_exceptions. }
    cbn in Hm. apply mbind_Ret_inv in Hm as (r & w2 & _ & [= <- <-]).
    apply mbind_Raise_inv in H as [H|([] & w3 & _ & H)]; [|by eapply Hrun].
    unfold assign_previous_menu in H. by destruct (heap w2 !! r).
  - unfold navigate_to_menu_with.
    intros [H|(menu & w1 & [= <- <-] & H)]%mbind_Raise_inv; [done|].
    apply mbind_Raise_inv in H as [H|([] & w3 & _ & H)]; [|by eapply Hrun].
    unfold assign_previous_menu in H. by destruct (heap w !! r).
Qed.

(** Whatever [run] raises was raised by an action of a concrete menu or is
    one of the exceptions of the display, of the input loop and of the
    instantiation of a menu class. The [NotImplementedError] that
    [execute_option] has for an absent option is none of the latter: [run]
    never raises it unless an action does. *)
Theorem run_raises (P : PyExn -> Prop) :
  (forall f w e w', call f w = Raise e w' -> P e) ->
  forall fuel self w e w',
    run_ fuel self w = Raise e w' ->
    (P e \/ e ∈ core_exceptions)
    /\ (~ P (NotImplementedError "No implementation for None") ->
        e <> NotImplementedError "No implementation for None").
Proof.
  intros Hcall.
  assert (forall fuel self w e w',
             run_ fuel self w = Raise e w' -> P e \/ e ∈ core_exceptions)
    as Hmain.
  { induction fuel as [|fuel IH]; intros self w e w'; [done|].
    rewrite run_S. destruct (heap w !! self) as [m|]; [|done].
    intros [H|([] & w1 & _ & H)]%mbind_Raise_inv;
      [right; by eapply display_menu_Raise|].
    apply mbind_Raise_inv in H as [H|(choice & w2 & Hh & H)];
      [right; by eapply handle_user_input_loop_Raise|].
    destruct (eq_str choice "q").
    { by apply mbind_Raise_inv in H as [H|(? & ? & _ & H)]. }
    destruct (eq_str choice "b"); [done|].
    apply handle_user_input_loop_Ret in Hh as (Hne & _ & _).
    apply mbind_Raise_inv in H as [H|([] & w3 & _ & H)]; [|by eapply IH].
    revert H. by apply execute_option_with_Raise. }
  intros fuel self w e w' H. split; [by eapply Hmain|].
  intros HP ->. apply Hmain in H as [H|H]; [done|].
  apply list_elem_of_In in H. cbn in H. intuition discriminate.
Qed.

End RunErrors.

Lemma run_raises_witness :
  (AttributeError = OtherError "build_action"
   \/ AttributeError ∈ core_exceptions)
  /\ (NotImplementedError "No implementation for None"
      <> OtherError "build_action" ->
      AttributeError <> NotImplementedError "No implementation for None").
Proof.
  destruct (run_raises NAVI_OPTIONS_spec demo_classes demo_call
              (fun e => e = OtherError "build_action")
              ltac:(intros f w e w'; discriminate)
              3 0 (mkWorld (demo_heap BACK) ["4"; "b"] [])
              AttributeError
              (mkWorld
                 (<[2 := set_previous (PyMenu 0)
                           (new_object demo_classes (SubClass "AdvancedMenu"))]>
                    (demo_heap BACK))
                 []
                 [Header; MenuBody "MainMenu"; QuitFooter;
                  Prompt "Perform action"; Header; MenuBody "AdvancedMenu";
                  BackFooter; Prompt "Perform action"]))
    as [H1 H2].
  - vm_compute. reflexivity.
  - split; [exact H1 | exact H2].
Defined.

(** ** Termination of the run loop *)

Section Termination.

Variable NAVI_OPTIONS : gmap FooterType (list string).
Variable classes : string -> ClassDef.
Variable call : string -> M PyVal.

Local Abbreviation run_ := (run NAVI_OPTIONS classes call).

(** The actions return in bounded time and do not put lines back on the
    input. *)
Hypothesis call_returns : forall f w, call f w <> OutOfFuel.
Hypothesis call_reads :
  forall f w v w',
    call f w = Ret v w' -> List.length (stdin w') <= List.length (stdin w).

Lemma mbind_OutOfFuel_inv {A B : Type} (c : M A) (k : A -> M B) w :
  (c ≫= k) w = OutOfFuel ->
  c w = OutOfFuel \/ exists a w1, c w = Ret a w1 /\ k a w1 = OutOfFuel.
Proof.
  unfold mbind, M_bind, bind. destruct (c w) as [a w1| | | |]; try done.
  - intros H. right. by exists a, w1.
  - by left.
Qed.

Lemma display_menu_returns (m : BaseMenu) w :
  display_menu classes m w <> OutOfFuel.
Proof.
  unfold display_menu, print_menu, print_footer, mbind, M_bind, bind.
  destruct (header m), (cls m) as [|name]; cbn; try done;
    destruct (overrides_print_menu (classes name)); cbn; try done;
    by destruct (footer_type m).
Qed.

Lemma handle_user_input_loop_returns (m : BaseMenu) lines w :
  handle_user_input_loop NAVI_OPTIONS m lines w <> OutOfFuel.
Proof.
  revert w. induction lines as [|line rest IH]; intros w; [done|].
  cbn [handle_user_input_loop].
  destruct (validate_user_input NAVI_OPTIONS m (lower line)); [|done].
  destruct (negb (is_none a)); [done|]. apply IH.
Qed.

Lemma instantiate_Ret_stdin (c : MenuClass) w r w' :
  instantiate classes c w = Ret r w' -> stdin w' = stdin w.
Proof.
  unfold instantiate. destruct (is_abstract classes c); [done|].
  destruct (BaseMenu_init c); [|done]. by intros [= _ <-].
Qed.

Lemma assign_previous_menu_Ret_stdin (r : nat) v w u w' :
  assign_previous_menu r v w = Ret u w' -> stdin w' = stdin w.
Proof.
  unfold assign_previous_menu. destruct (heap w !! r); [|done].
  by inversion 1.
Qed.

Lemma instantiate_Ret_or_Raise (c : MenuClass) w :
  (exists r w1, instantiate classes c w = Ret r w1)
  \/ (exists e, instantiate classes c w = Raise e w).
Proof.
  unfold instantiate. destruct (is_abstract classes c); [right; by eexists|].
  destruct (BaseMenu_init c); [left; by do 2 eexists|right; by eexists].
Qed.

(** Entering a sub-menu reads nothing. *)
Lemma enters_stdin (self : nat) v w r w' :
  enters classes self v w r w' -> stdin w' = stdin w.
Proof.
  intros (w1 & [[_ ->]|(c & _ & Hc)] & Ha);
    apply assign_previous_menu_Ret_stdin in Ha; [done|].
  apply instantiate_Ret_stdin in Hc. congruence.
Qed.

(** What [execute_option] does with an option that is not [None]: it
    enters a sub-menu, calls an action, or does nothing. *)
Lemma execute_option_with_cases (runf : nat -> M unit) (self : nat)
    (v : PyVal) w :
  v <> PyNone ->
  (exists r w1,
      enters classes self v w r w1
      /\ execute_option_with classes call runf self v w = runf r w1)
  \/ (exists f,
         v = PyFunc f
         /\ execute_option_with classes call runf self v w
            = (call f;; mret tt) w)
  \/ (forall r w1, execute_option_with classes call runf self v w <> Exit r w1)
     /\ execute_option_with classes call runf self v w <> OutOfFuel
     /\ (forall u w1,
            execute_option_with classes call runf self v w = Ret u w1 ->
            w1 = w).
Proof.
  intros Hv. unfold execute_option_with.
  destruct v; cbn [is_none is_menu_type is_menu_instance callable]; try done.
  - right. right. repeat split; try done. by intros u w1 [= <-].
  - right. left. by exists f.
  - unfold navigate_to_menu_with, py_call, mbind, M_bind, bind, mret, M_ret.
    destruct (instantiate_Ret_or_Raise c w) as [(r & w1 & Hi)|(e & Hi)];
      rewrite Hi; [|right; right; by repeat split].
    destruct (heap w1 !! r) as [obj|] eqn:Hr;
      [|right; right; unfold assign_previous_menu; rewrite Hr;
        by repeat split].
    left. exists r. eexists. split.
    + exists w1. split; [right; by exists c|].
      unfold assign_previous_menu. by rewrite Hr.
    + unfold assign_previous_menu. by rewrite Hr.
  - unfold navigate_to_menu_with, mbind, M_bind, bind, mret, M_ret.
    destruct (heap w !! r) as [obj|] eqn:Hr;
      [|right; right; unfold assign_previous_menu; rewrite Hr;
        by repeat split].
    left. exists r. eexists. split.
    + exists w. split; [by left|].
      unfold assign_previous_menu. by rewrite Hr.
    + unfold assign_previous_menu. by rewrite Hr.
  - right. right. repeat split; try done. by intros u w1 [= <-].
Qed.

(** No line is put back on the input while a menu runs. *)
Lemma run_Ret_stdin fuel (self : nat) w u w' :
  run_ fuel self w = Ret u w' ->
  List.length (stdin w') <= List.length (stdin w).
Proof.
  revert self w u w'.
  induction fuel as [|fuel IH]; intros self w u w'; [done|].
  rewrite run_S. destruct (heap w !! self) as [m|]; [|done].
  intros ([] & w1 & Hd & H)%mbind_Ret_inv.
  apply mbind_Ret_inv in H as (choice & w2 & Hh & H).
  apply display_menu_Ret in Hd as [_ Hd].
  pose proof Hh as (Hne & _ & _)%handle_user_input_loop_Ret.
  apply handle_user_input_Ret_shorter in Hh as [Hh _]. rewrite Hd in Hh.
  destruct (eq_str choice "q").
  { by apply mbind_Ret_inv in H as (? & ? & _ & ?). }
  destruct (eq_str choice "b").
  { injection H as _ <-. lia. }
  apply mbind_Ret_inv in H as ([] & w3 & He & H). apply IH in H.
  enough (List.length (stdin w3) <= List.length (stdin w2)) by lia.
  destruct (execute_option_with_cases (run_ fuel) self choice w2 Hne)
    as [(r & w4 & Hen & Heq)|[(f & -> & Heq)|(_ & _ & Hsame)]].
  - unfold execute_option in He. rewrite Heq in He. apply IH in He.
    apply enters_stdin in Hen. rewrite Hen in *. lia.
  - unfold execute_option in He. rewrite Heq in He.
    apply mbind_Ret_inv in He as (v & w4 & Hc & [= <-]).
    by apply call_reads in Hc.
  - apply Hsame in He as ->. lia.
Qed.

(** The run loop terminates on every finite input: each turn of the loop
    and each sub-menu entered reads at least one line, so that more fuel
    than there are pending lines is always enough; the loop then ends by
    back, by quit or by an exception. *)
Theorem run_terminates fuel (self : nat) w :
  List.length (stdin w) < fuel ->
  run NAVI_OPTIONS classes call fuel self w <> OutOfFuel.
Proof.
  revert self w. induction fuel as [|fuel IH]; intros self w Hlen; [lia|].
  rewrite run_S. destruct (heap w !! self) as [m|]; [|done].
  intros [H|([] & w1 & Hd & H)]%mbind_OutOfFuel_inv;
    [by apply display_menu_returns in H|].
  apply mbind_OutOfFuel_inv in H as [H|(choice & w2 & Hh & H)];
    [by apply handle_user_input_loop_returns in H|].
  apply display_menu_Ret in Hd as [_ Hd].
  pose proof Hh as (Hne & _ & _)%handle_user_input_loop_Ret.
  apply handle_user_input_Ret_shorter in Hh as [Hh _]. rewrite Hd in Hh.
  destruct (eq_str choice "q").
  { by apply mbind_OutOfFuel_inv in H as [H|(? & ? & _ & H)]. }
  destruct (eq_str choice "b"); [done|].
  apply mbind_OutOfFuel_inv in H as [H|([] & w3 & He & H)].
  - destruct (execute_option_with_cases (run_ fuel) self choice w2 Hne)
      as [(r & w4 & Hen & Heq)|[(f & -> & Heq)|(_ & Hno & _)]].
    + unfold execute_option in H. rewrite Heq in H. revert H. apply IH.
      apply enters_stdin in Hen. rewrite Hen in *. lia.
    + unfold execute_option in H. rewrite Heq in H.
      apply mbind_OutOfFuel_inv in H as [H|(? & ? & _ & H)]; [|done].
      by apply call_returns in H.
    + done.
  - revert H. apply IH.
    enough (List.length (stdin w3) <= List.length (stdin w2)) by lia.
    destruct (execute_option_with_cases (run_ fuel) self choice w2 Hne)
      as [(r & w4 & Hen & Heq)|[(f & -> & Heq)|(_ & _ & Hsame)]].
    + unfold execute_option in He. rewrite Heq in He.
      apply run_Ret_stdin in He. apply enters_stdin in Hen.
      rewrite Hen in *. lia.
    + unfold execute_option in He. rewrite Heq in He.
      apply mbind_Ret_inv in He as (v & w4 & Hc & [= <-]).
      by apply call_reads in Hc.
    + apply Hsame in He as ->. lia.
Qed.

End Termination.

Lemma run_terminates_witness :
  run NAVI_OPTIONS_spec demo_classes demo_call 4 0
    (mkWorld (demo_heap BACK) ["3"; "x"; "1"] [])
  <> OutOfFuel.
Proof.
  apply (run_terminates NAVI_OPTIONS_spec demo_classes demo_call).
  - intros f w. discriminate.
  - intros f w v w' H. injection H as _ <-. simpl. lia.
  - simpl. lia.
Defined.

(** ** What the run loop does with a choice *)

Section Dispatch.

Variable NAVI_OPTIONS : gmap FooterType (list string).
Variable classes : string -> ClassDef.
Variable call : string -> M PyVal.

(** A navigation token of the footer kind other than q and b -- the h of
    the back+help footer -- is accepted as valid input, but nothing is
    dispatched for it: the loop goes on with the same menu, the prompt being
    all that was written. *)
Theorem run_other_token_redisplays fuel (self : nat) (m : BaseMenu) tbl
    tokens w w1 line rest :
  heap w !! self = Some m ->
  options m = Some tbl ->
  NAVI_OPTIONS !! footer_type m = Some tokens ->
  display_menu classes m w = Ret tt w1 ->
  stdin w1 = line :: rest ->
  lower line ∈ tokens ->
  lower line <> "q" ->
  lower line <> "b" ->
  run NAVI_OPTIONS classes call (S fuel) self w
  = run NAVI_OPTIONS classes call fuel self
      (mkWorld (heap w) rest
         (stdout w1 ++ [Prompt (input_label_txt m)])%list).
Proof.
  intros Hm Ho Hn Hd Hs Ht Hq Hb.
  rewrite (run_unfold NAVI_OPTIONS classes call fuel self m w Hm).
  rewrite (mbind_Ret _ _ _ _ _ Hd).
  assert (handle_user_input NAVI_OPTIONS m w1
          = Ret (PyStr (lower line))
              (mkWorld (heap w) rest
                 (stdout w1 ++ [Prompt (input_label_txt m)])%list)) as Hh.
  { rewrite (handle_user_input_step NAVI_OPTIONS m line rest w1 Hs).
    rewrite (validate_unfold NAVI_OPTIONS m tbl tokens) by done.
    cbn zeta. rewrite lower_idemp, bool_decide_eq_true_2 by done.
    apply display_menu_Ret in Hd as [<- _]. done. }
  rewrite (mbind_Ret _ _ _ _ _ Hh).
  assert (eq_str (PyStr (lower line)) "q" = false) as ->
    by (apply eq_str_false; congruence).
  assert (eq_str (PyStr (lower line)) "b" = false) as ->
    by (apply eq_str_false; congruence).
  done.
Qed.

(** When the choice opens a sub-menu, [run] is the run loop of the
    sub-menu followed by the rest of its own loop: back in the sub-menu
    resumes the caller in the state the sub-menu left, whatever
    [previous_menu] holds, and an exit or an exception of the sub-menu is
    that of the caller. *)
Theorem run_submenu_then_resume fuel (self : nat) (m : BaseMenu) w w1 w2
    choice r w3 :
  heap w !! self = Some m ->
  display_menu classes m w = Ret tt w1 ->
  handle_user_input NAVI_OPTIONS m w1 = Ret choice w2 ->
  enters classes self choice w2 r w3 ->
  run NAVI_OPTIONS classes call (S fuel) self w
  = (run NAVI_OPTIONS classes call fuel r;;
     run NAVI_OPTIONS classes call fuel self) w3.
Proof.
  intros Hm Hd Hh He.
  rewrite (run_unfold NAVI_OPTIONS classes call fuel self m w Hm).
  rewrite (mbind_Ret _ _ _ _ _ Hd), (mbind_Ret _ _ _ _ _ Hh).
  apply (enters_execute_option NAVI_OPTIONS classes call fuel) in He
    as (Hq & Hb & He).
  rewrite (eq_str_false _ _ Hq), (eq_str_false _ _ Hb).
  unfold mbind, M_bind, bind. by rewrite He.
Qed.

(** A menu class that cannot be instantiated -- [BaseMenu] itself, or a
    subclass that leaves [print_menu] abstract -- makes [execute_option]
    raise [TypeError]: no object is created, no run loop is entered, and the
    exception leaves the run loop of the caller. *)
Theorem execute_option_abstract_class fuel (self : nat) (c : MenuClass)
    (m : BaseMenu) w w1 w2 :
  is_abstract classes c = true ->
  execute_option NAVI_OPTIONS classes call fuel self (PyMenuType c) w2
  = Raise TypeError w2
  /\ (heap w !! self = Some m ->
      display_menu classes m w = Ret tt w1 ->
      handle_user_input NAVI_OPTIONS m w1 = Ret (PyMenuType c) w2 ->
      run NAVI_OPTIONS classes call (S fuel) self w = Raise TypeError w2).
Proof.
  intros Ha.
  assert (execute_option NAVI_OPTIONS classes call fuel self (PyMenuType c) w2
          = Raise TypeError w2) as He.
  { unfold execute_option, execute_option_with, navigate_to_menu_with, py_call,
      instantiate, mbind, M_bind, bind. cbn. by rewrite Ha. }
  split; [done|]. intros Hm Hd Hh.
  rewrite (run_unfold NAVI_OPTIONS classes call fuel self m w Hm).
  rewrite (mbind_Ret _ _ _ _ _ Hd), (mbind_Ret _ _ _ _ _ Hh).
  cbn [eq_str]. unfold mbind, M_bind, bind. by rewrite He.
Qed.

End Dispatch.

(** The help token on a back+help menu. *)
Lemma run_other_token_redisplays_witness :
  run NAVI_OPTIONS_spec demo_classes demo_call 2 1
    (mkWorld (demo_heap BACK_HELP) ["H"; "b"] [])
  = run NAVI_OPTIONS_spec demo_classes demo_call 1 1
      (mkWorld (demo_heap BACK_HELP) ["b"]
         [MenuBody "BuildMenu"; BackHelpFooter; Prompt "Perform action"]).
Proof.
  apply (run_other_token_redisplays NAVI_OPTIONS_spec demo_classes demo_call
           1 1 (child_menu BACK_HELP) {[ "1" := PyFunc "build_action" ]}
           ["b"; "h"]
           (mkWorld (demo_heap BACK_HELP) ["H"; "b"] [])
           (mkWorld (demo_heap BACK_HELP) ["H"; "b"]
              [MenuBody "BuildMenu"; BackHelpFooter])
           "H" ["b"]).
  - vm_compute. reflexivity.
  - reflexivity.
  - vm_compute. reflexivity.
  - vm_compute. reflexivity.
  - reflexivity.
  - vm_compute. right. left.
  - discriminate.
  - discriminate.
Defined.

Lemma run_submenu_then_resume_witness :
  run NAVI_OPTIONS_spec demo_classes demo_call 3 0
    (mkWorld (demo_heap BACK) ["3"; "b"; "q"] [])
  = (run NAVI_OPTIONS_spec demo_classes demo_call 2 1;;
     run NAVI_OPTIONS_spec demo_classes demo_call 2 0)
      (mkWorld (entered_heap BACK) ["b"; "q"]
         [Header; MenuBody "MainMenu"; QuitFooter; Prompt "Perform action"]).
Proof.
  apply (run_submenu_then_resume NAVI_OPTIONS_spec demo_classes demo_call
           2 0 parent_menu
           (mkWorld (demo_heap BACK) ["3"; "b"; "q"] [])
           (mkWorld (demo_heap BACK) ["3"; "b"; "q"]
              [Header; MenuBody "MainMenu"; QuitFooter])
           (mkWorld (demo_heap BACK) ["b"; "q"]
              [Header; MenuBody "MainMenu"; QuitFooter;
               Prompt "Perform action"])
           (PyMenu 1) 1).
  - vm_compute. reflexivity.
  - vm_compute. reflexivity.
  - vm_compute. reflexivity.
  - eexists. split; [left; split; reflexivity|]. vm_compute. reflexivity.
Defined.

Lemma execute_option_abstract_class_witness :
  execute_option NAVI_OPTIONS_spec demo_classes demo_call 2 0
    (PyMenuType BaseMenuClass) (mkWorld (demo_heap BACK) ["b"] [])
  = Raise TypeError (mkWorld (demo_heap BACK) ["b"] []).
Proof.
  apply (proj1 (execute_option_abstract_class NAVI_OPTIONS_spec demo_classes
                  demo_call 2 0 BaseMenuClass parent_menu
                  (mkWorld (demo_heap BACK) ["b"] [])
                  (mkWorld (demo_heap BACK) ["b"] [])
                  (mkWorld (demo_heap BACK) ["b"] [])
                  eq_refl)).
Defined.

(** ** [previous_menu] is written, never read *)

Section PreviousMenu.

Variable NAVI_OPTIONS : gmap FooterType (list string).
Variable classes : string -> ClassDef.
Variable call : string -> M PyVal.

(** Two worlds that differ in the [previous_menu] of their menus only. *)
Local Abbreviation similar w w' := (erase_previous w = erase_previous w').
Local Abbreviation same_outcome o o' := (erase_outcome o = erase_outcome o').

Lemma erase_previous_emit (e : Event) w :
  erase_previous (emit e w) = emit e (erase_previous w).
Proof. reflexivity. Qed.

Lemma erase_previous_set_stdin (l : list string) w :
  erase_previous (set_stdin l w) = set_stdin l (erase_previous w).
Proof. reflexivity. Qed.

Lemma erase_previous_set_heap (h : gmap nat BaseMenu) w :
  erase_previous (set_heap h w)
  = set_heap (set_previous PyNone <$> h) (erase_previous w).
Proof. reflexivity. Qed.

Lemma similar_stdin w w' : similar w w' -> stdin w = stdin w'.
Proof. intros H. by apply (f_equal stdin) in H. Qed.

Lemma similar_heap w w' :
  similar w w' ->
  set_previous PyNone <$> heap w = set_previous PyNone <$> heap w'.
Proof. intros H. by apply (f_equal heap) in H. Qed.

Lemma similar_lookup w w' (r : nat) :
  similar w w' ->
  set_previous PyNone <$> (heap w !! r) = set_previous PyNone <$> (heap w' !! r).
Proof. intros H%similar_heap. by rewrite <-!lookup_fmap, H. Qed.

Lemma mbind_similar {A B : Type} (c c' : M A) (k k' : A -> M B) w w' :
  same_outcome (c w) (c' w') ->
  (forall a w1 w1', similar w1 w1' -> same_outcome (k a w1) (k' a w1')) ->
  same_outcome ((c ≫= k) w) ((c' ≫= k') w').
Proof.
  unfold mbind, M_bind, bind. intros Hc Hk.
  destruct (c w) as [a w1|e w1|code w1| |],
    (c' w') as [a' w1'|e' w1'|code' w1'| |]; cbn in Hc; try done; cbn.
  - assert (a = a' /\ similar w1 w1') as [-> Hw] by (split; congruence).
    by apply Hk.
  - assert (e = e' /\ similar w1 w1') as [-> ->] by (split; congruence).
    done.
  - assert (code = code' /\ similar w1 w1') as [-> ->]
      by (split; congruence).
    done.
Qed.

Lemma display_menu_similar (m m' : BaseMenu) w w' :
  set_previous PyNone m = set_previous PyNone m' ->
  similar w w' ->
  same_outcome (display_menu classes m w) (display_menu classes m' w').
Proof.
  destruct m as [c o d l h p ft], m' as [c' o' d' l' h' p' ft'].
  intros [= -> -> -> -> -> ->] Hw. unfold display_menu.
  apply mbind_similar.
  { cbn. destruct h'; cbn; by rewrite ?erase_previous_emit, Hw. }
  intros _ w1 w1' H1. apply mbind_similar.
  { unfold print_menu, output, raise. cbn. destruct c' as [|name]; cbn;
      [by rewrite H1|].
    destruct (overrides_print_menu (classes name)); cbn;
      by rewrite ?erase_previous_emit, H1. }
  intros _ w2 w2' H2. unfold print_footer, output, raise. cbn.
  destruct ft'; cbn; by rewrite ?erase_previous_emit, H2.
Qed.

Lemma validate_user_input_similar (m m' : BaseMenu) raw :
  set_previous PyNone m = set_previous PyNone m' ->
  validate_user_input NAVI_OPTIONS m raw
  = validate_user_input NAVI_OPTIONS m' raw.
Proof.
  intros H. rewrite <-(validate_set_previous NAVI_OPTIONS PyNone m), H.
  apply validate_set_previous.
Qed.

Lemma handle_user_input_similar (m m' : BaseMenu) w w' :
  set_previous PyNone m = set_previous PyNone m' ->
  similar w w' ->
  same_outcome (handle_user_input NAVI_OPTIONS m w)
    (handle_user_input NAVI_OPTIONS m' w').
Proof.
  intros Hm Hw. unfold handle_user_input.
  rewrite <-(similar_stdin w w' Hw). generalize (stdin w) as lines.
  intros lines. revert w w' Hw.
  assert (input_label_txt m = input_label_txt m') as Hl
    by (by apply (f_equal input_label_txt) in Hm).
  induction lines as [|line rest IH]; intros w w' Hw; cbn [handle_user_input_loop].
  - cbn. by rewrite !erase_previous_set_stdin, !erase_previous_emit, Hw, Hl.
  - rewrite <-(validate_user_input_similar m m' _ Hm), <-Hl.
    destruct (validate_user_input NAVI_OPTIONS m (lower line)) as [v|e]; cbn.
    + destruct (negb (is_none v)); cbn.
      * by rewrite !erase_previous_set_stdin, !erase_previous_emit, Hw.
      * apply IH.
        by rewrite !erase_previous_emit, !erase_previous_set_stdin,
          !erase_previous_emit, Hw.
    + by rewrite !erase_previous_set_stdin, !erase_previous_emit, Hw.
Qed.

Lemma instantiate_similar (c : MenuClass) w w' :
  similar w w' ->
  same_outcome (instantiate classes c w) (instantiate classes c w').
Proof.
  intros Hw. unfold instantiate.
  destruct (is_abstract classes c); cbn; [by rewrite Hw|].
  destruct (BaseMenu_init c); cbn; [|by rewrite Hw].
  assert (dom (heap w) = dom (heap w')) as ->.
  { apply similar_heap in Hw. apply (f_equal dom) in Hw.
    by rewrite !dom_fmap_L in Hw. }
  f_equal. rewrite !erase_previous_set_heap, !fmap_insert.
  by rewrite (similar_heap w w' Hw), Hw.
Qed.

Lemma assign_previous_menu_similar (r : nat) (v : PyVal) w w' :
  similar w w' ->
  same_outcome (assign_previous_menu r v w) (assign_previous_menu r v w').
Proof.
  intros Hw. unfold assign_previous_menu.
  pose proof (similar_lookup w w' r Hw) as Hr.
  destruct (heap w !! r) as [obj|], (heap w' !! r) as [obj'|];
    cbn in Hr; try done. cbn. f_equal.
  rewrite !erase_previous_set_heap, !fmap_insert.
  rewrite (similar_heap w w' Hw), Hw. do 2 f_equal.
  assert (set_previous PyNone obj = set_previous PyNone obj') as Ho
    by congruence.
  destruct obj, obj'. exact Ho.
Qed.

(** The actions of the concrete menus do not read [previous_menu]
    either. *)
Hypothesis call_similar :
  forall f w w', similar w w' -> same_outcome (call f w) (call f w').

Lemma py_call_similar (v : PyVal) w w' :
  similar w w' ->
  same_outcome (py_call classes call v w) (py_call classes call v w').
Proof.
  intros Hw. destruct v; cbn; unfold raise; cbn; try by rewrite Hw.
  - by apply call_similar.
  - apply mbind_similar; [by apply instantiate_similar|].
    intros r w1 w1' H1. cbn. by rewrite H1.
Qed.

Lemma navigate_to_menu_with_similar (runf : nat -> M unit) :
  (forall r w w', similar w w' -> same_outcome (runf r w) (runf r w')) ->
  forall self v inst w w',
    similar w w' ->
    same_outcome (navigate_to_menu_with classes call runf self v inst w)
      (navigate_to_menu_with classes call runf self v inst w').
Proof.
  intros Hrun self v inst w w' Hw. unfold navigate_to_menu_with.
  apply mbind_similar.
  - destruct inst; [by apply py_call_similar|]. cbn. by rewrite Hw.
  - intros menu w1 w1' H1. destruct menu; unfold raise; cbn; try by rewrite H1.
    apply mbind_similar; [by apply assign_previous_menu_similar|].
    intros _ w2 w2' H2. by apply Hrun.
Qed.

Lemma execute_option_with_similar (runf : nat -> M unit) :
  (forall r w w', similar w w' -> same_outcome (runf r w) (runf r w')) ->
  forall self v w w',
    similar w w' ->
    same_outcome (execute_option_with classes call runf self v w)
      (execute_option_with classes call runf self v w').
Proof.
  intros Hrun self v w w' Hw. unfold execute_option_with.
  destruct v; cbn [is_none is_menu_type is_menu_instance callable].
  - unfold raise. cbn. by rewrite Hw.
  - cbn. by rewrite Hw.
  - apply mbind_similar; [by apply call_similar|].
    intros _ w1 w1' H1. cbn. by rewrite H1.
  - by apply navigate_to_menu_with_similar.
  - by apply navigate_to_menu_with_similar.
  - cbn. by rewrite Hw.
Qed.

(** The menu code never reads [previous_menu]: started in two states that
    differ only in the [previous_menu] of their menus, [run] ends alike --
    same return, exception or exit, same input read, same output written --
    in states that again differ in [previous_menu] only. *)
Theorem run_ignores_previous_menu fuel (self : nat) w w' :
  erase_previous w = erase_previous w' ->
  erase_outcome (run NAVI_OPTIONS classes call fuel self w)
  = erase_outcome (run NAVI_OPTIONS classes call fuel self w').
Proof.
  revert self w w'. induction fuel as [|fuel IH]; intros self w w' Hw; [done|].
  rewrite !run_S. pose proof (similar_lookup w w' self Hw) as Hs.
  destruct (heap w !! self) as [m|], (heap w' !! self) as [m'|];
    cbn in Hs; try done.
  assert (set_previous PyNone m = set_previous PyNone m') as Hm
    by congruence.
  apply mbind_similar; [by apply display_menu_similar|].
  intros _ w1 w1' H1.
  apply mbind_similar; [by apply handle_user_input_similar|].
  intros choice w2 w2' H2.
  destruct (eq_str choice "q").
  { apply mbind_similar; [cbn; by rewrite !erase_previous_emit, H2|].
    intros _ w3 w3' H3. cbn. by rewrite H3. }
  destruct (eq_str choice "b"); [cbn; by rewrite H2|].
  apply mbind_similar; [by apply execute_option_with_similar|].
  intros _ w3 w3' H3. by apply IH.
Qed.

End PreviousMenu.

(** The child was built with [MainMenu] as its previous menu in one store
    and holds the parent in the other: the session is the same. *)
Lemma run_ignores_previous_menu_witness :
  erase_outcome
    (run NAVI_OPTIONS_spec demo_classes demo_call 4 0
       (mkWorld (demo_heap BACK) ["3"; "1"; "b"; "q"] []))
  = erase_outcome
      (run NAVI_OPTIONS_spec demo_classes demo_call 4 0
         (mkWorld (entered_heap BACK) ["3"; "1"; "b"; "q"] [])).
Proof.
  apply (run_ignores_previous_menu NAVI_OPTIONS_spec demo_classes demo_call).
  - intros f w w' H.
    change (Ret PyNone (emit (Action f) (erase_previous w))
            = Ret PyNone (emit (Action f) (erase_previous w'))).
    rewrite H. reflexivity.
  - vm_compute. reflexivity.
Defined.

(** ** Nothing but [previous_menu] is written *)

Section Frame.

Variable NAVI_OPTIONS : gmap FooterType (list string).
Variable classes : string -> ClassDef.
Variable call : string -> M PyVal.

Lemma keeps_menus_heap w w' : heap w' = heap w -> keeps_menus w w'.
Proof. intros H r m Hr. exists m. by rewrite H. Qed.

Lemma keeps_menus_trans w1 w2 w3 :
  keeps_menus w1 w2 -> keeps_menus w2 w3 -> keeps_menus w1 w3.
Proof.
  intros H12 H23 r m Hr. apply H12 in Hr as (m2 & Hr & H2).
  apply H23 in Hr as (m3 & Hr & H3). exists m3. split; [done|]. congruence.
Qed.

Lemma mbind_keeps_menus {A B : Type} (c : M A) (k : A -> M B) w :
  (forall w', final_world (c w) = Some w' -> keeps_menus w w') ->
  (forall a w1 w',
      c w = Ret a w1 -> final_world (k a w1) = Some w' -> keeps_menus w1 w') ->
  forall w', final_world ((c ≫= k) w) = Some w' -> keeps_menus w w'.
Proof.
  intros Hc Hk w'. unfold mbind, M_bind, bind.
  destruct (c w) as [a w1|e w1|code w1| |] eqn:Hcw; try done.
  - intros H. apply keeps_menus_trans with w1; [by apply Hc|by eapply Hk].
  - apply Hc.
  - apply Hc.
Qed.

Lemma display_menu_keeps (m : BaseMenu) w w' :
  final_world (display_menu classes m w) = Some w' -> keeps_menus w w'.
Proof.
  intros H. apply keeps_menus_heap. revert H.
  unfold display_menu, print_menu, print_footer, mbind, M_bind, bind, output,
    raise, mret, M_ret.
  destruct (header m), (cls m) as [|name]; cbn; try (by intros [= <-]);
    destruct (overrides_print_menu (classes name)); cbn;
    try (by intros [= <-]); destruct (footer_type m); cbn; by intros [= <-].
Qed.

Lemma handle_user_input_loop_keeps (m : BaseMenu) lines w w' :
  final_world (handle_user_input_loop NAVI_OPTIONS m lines w) = Some w' ->
  heap w' = heap w.
Proof.
  revert w. induction lines as [|line rest IH]; intros w;
    cbn [handle_user_input_loop].
  - by intros [= <-].
  - destruct (validate_user_input NAVI_OPTIONS m (lower line)) as [v|e];
      [|by intros [= <-]].
    destruct (negb (is_none v)); [by intros [= <-]|].
    intros H. by apply IH in H.
Qed.

Lemma instantiate_keeps (c : MenuClass) w w' :
  final_world (instantiate classes c w) = Some w' -> keeps_menus w w'.
Proof.
  unfold instantiate. destruct (is_abstract classes c);
    [intros [= <-]; by apply keeps_menus_heap|].
  destruct (BaseMenu_init c); [|intros [= <-]; by apply keeps_menus_heap].
  intros [= <-] r m Hr. exists m. split; [|done]. cbn.
  rewrite lookup_insert_ne; [done|]. intros <-.
  pose proof (is_fresh (dom (heap w))) as Hf.
  apply not_elem_of_dom in Hf. congruence.
Qed.

Lemma assign_previous_menu_keeps (r : nat) (v : PyVal) w w' :
  final_world (assign_previous_menu r v w) = Some w' -> keeps_menus w w'.
Proof.
  unfold assign_previous_menu. destruct (heap w !! r) as [obj|] eqn:Hr; [|done].
  intros [= <-] r0 m Hr0. cbn. destruct (decide (r = r0)) as [<-|Hne].
  - rewrite lookup_insert_eq. exists (set_previous v obj).
    split; [done|]. assert (m = obj) as -> by congruence. by destruct obj.
  - rewrite lookup_insert_ne by done. by exists m.
Qed.

(** The actions of the concrete menus change no menu object. *)
Hypothesis call_keeps :
  forall f w w', final_world (call f w) = Some w' -> keeps_menus w w'.

Lemma py_call_keeps (v : PyVal) w w' :
  final_world (py_call classes call v w) = Some w' -> keeps_menus w w'.
Proof.
  destruct v; cbn; try (intros [= <-]; by apply keeps_menus_heap).
  - apply call_keeps.
  - apply mbind_keeps_menus.
    + intros w1. apply instantiate_keeps.
    + intros r w1 w2 _ [= <-]. by apply keeps_menus_heap.
Qed.

Lemma navigate_to_menu_with_keeps (runf : nat -> M unit) :
  (forall r w w', final_world (runf r w) = Some w' -> keeps_menus w w') ->
  forall self v inst w w',
    final_world (navigate_to_menu_with classes call runf self v inst w)
    = Some w' ->
    keeps_menus w w'.
Proof.
  intros Hrun self v inst w. unfold navigate_to_menu_with.
  apply mbind_keeps_menus.
  - destruct inst; [apply py_call_keeps|].
    intros w' [= <-]. by apply keeps_menus_heap.
  - intros menu w1 w' _.
    destruct menu; try (intros [= <-]; by apply keeps_menus_heap).
    revert w'. apply mbind_keeps_menus.
    + intros w'. apply assign_previous_menu_keeps.
    + intros _ w2 w' _. apply Hrun.
Qed.

Lemma execute_option_with_keeps (runf : nat -> M unit) :
  (forall r w w', final_world (runf r w) = Some w' -> keeps_menus w w') ->
  forall self v w w',
    final_world (execute_option_with classes call runf self v w) = Some w' ->
    keeps_menus w w'.
Proof.
  intros Hrun self v w. unfold execute_option_with.
  destruct v; cbn [is_none is_menu_type is_menu_instance callable];
    try (intros w' [= <-]; by apply keeps_menus_heap).
  - apply mbind_keeps_menus.
    + intros w'. apply call_keeps.
    + intros _ w1 w' _ [= <-]. by apply keeps_menus_heap.
  - by apply navigate_to_menu_with_keeps.
  - by apply navigate_to_menu_with_keeps.
Qed.

(** While a menu runs, the menu code removes no menu object and writes no
    attribute of an existing menu object but [previous_menu]: option tables,
    default options, labels, header flags and footer kinds are, however the
    run ends, what they were when it began. *)
Theorem run_keeps_menus fuel (self : nat) w w' :
  final_world (run NAVI_OPTIONS classes call fuel self w) = Some w' ->
  forall r m,
    heap w !! r = Some m ->
    exists m',
      heap w' !! r = Some m'
      /\ cls m' = cls m /\ options m' = options m
      /\ default_option m' = default_option m
      /\ input_label_txt m' = input_label_txt m
      /\ header m' = header m /\ footer_type m' = footer_type m.
Proof.
  assert (forall fuel self w w',
             final_world (run NAVI_OPTIONS classes call fuel self w) = Some w' ->
             keeps_menus w w') as Hmain.
  { clear fuel self w w'. intros fuel.
    induction fuel as [|fuel IH]; intros self w; [done|].
    rewrite run_S. destruct (heap w !! self) as [m|]; [|done].
    apply mbind_keeps_menus; [intros w'; apply display_menu_keeps|].
    intros _ w1 w' _. revert w'. apply mbind_keeps_menus.
    { intros w' H. apply keeps_menus_heap.
      by apply handle_user_input_loop_keeps in H. }
    intros choice w2 w' _. destruct (eq_str choice "q").
    { revert w'. apply mbind_keeps_menus.
      - intros w' [= <-]. by apply keeps_menus_heap.
      - intros _ w3 w' _ [= <-]. by apply keeps_menus_heap. }
    destruct (eq_str choice "b").
    { intros [= <-]. by apply keeps_menus_heap. }
    revert w'. apply mbind_keeps_menus.
    - intros w'. by apply execute_option_with_keeps.
    - intros _ w3 w' _. apply IH. }
  intros H r m Hr. apply Hmain in H. apply H in Hr as (m' & Hr & Hm).
  exists m'. split; [done|]. destruct m, m'. by injection Hm as -> -> -> -> -> ->.
Qed.

End Frame.

Lemma demo_call_keeps (f : string) w w' :
  final_world (demo_call f w) = Some w' -> keeps_menus w w'.
Proof. intros [= <-] r m Hr. by exists m. Qed.

Lemma run_keeps_menus_witness :
  exists m',
    entered_heap BACK !! 1 = Some m'
    /\ cls m' = cls (child_menu BACK)
    /\ options m' = options (child_menu BACK)
    /\ default_option m' = default_option (child_menu BACK)
    /\ input_label_txt m' = input_label_txt (child_menu BACK)
    /\ header m' = header (child_menu BACK)
    /\ footer_type m' = footer_type (child_menu BACK).
Proof.
  apply (run_keeps_menus NAVI_OPTIONS_spec demo_classes demo_call
           demo_call_keeps
           3 0 (mkWorld (demo_heap BACK) ["3"; "1"; "b"; "q"] [])
           (mkWorld (entered_heap BACK) []
              [Header; MenuBody "MainMenu"; QuitFooter; Prompt "Perform action";
               MenuBody "BuildMenu"; BackFooter; Prompt "Perform action";
               Action "build_action";
               MenuBody "BuildMenu"; BackFooter; Prompt "Perform action";
               Header; MenuBody "MainMenu"; QuitFooter; Prompt "Perform action";
               LogOk "###### Happy printing!"])).
  - vm_compute. reflexivity.
  - vm_compute. reflexivity.
Defined.

(** ** Menus whose options were never populated; [AdvancedMenu] *)

Section Unpopulated.

Variable NAVI_OPTIONS : gmap FooterType (list string).
Variable classes : string -> ClassDef.
Variable call : string -> M PyVal.

(** [run] does not populate the option table: a menu whose [options] is
    still [None] when it is run, as an [AdvancedMenu] straight from its
    constructor is, is displayed and then fails with [AttributeError] on the
    first line read, whatever the line. *)
Theorem run_unpopulated_options fuel (self : nat) (m : BaseMenu) w w1 line
    rest :
  heap w !! self = Some m ->
  options m = None ->
  display_menu classes m w = Ret tt w1 ->
  stdin w1 = line :: rest ->
  run NAVI_OPTIONS classes call (S fuel) self w
  = Raise AttributeError
      (mkWorld (heap w) rest (stdout w1 ++ [Prompt (input_label_txt m)])%list).
Proof.
  intros Hm Ho Hd Hs.
  rewrite (run_unfold NAVI_OPTIONS classes call fuel self m w Hm).
  rewrite (mbind_Ret _ _ _ _ _ Hd).
  unfold mbind, M_bind, bind.
  rewrite (handle_user_input_step NAVI_OPTIONS m line rest w1 Hs).
  unfold validate_user_input. rewrite Ho. cbn.
  apply display_menu_Ret in Hd as [<- _]. done.
Qed.

End Unpopulated.

Section AdvancedMenuInputs.

Variable NAVI_OPTIONS : gmap FooterType (list string).

(** Once [set_options] has run, an [AdvancedMenu] accepts the navigation
    tokens of the back footer and the tokens 3, 4 and 6, in either case,
    and nothing else: every other input is invalid. *)
Theorem AdvancedMenu_accepted_inputs (previous : PyVal) tokens raw :
  NAVI_OPTIONS !! BACK = Some tokens ->
  validate_user_input NAVI_OPTIONS (set_options (AdvancedMenu_init previous))
    raw <> Ok PyNone
  <-> lower raw ∈ tokens \/ lower raw ∈ ["3"; "4"; "6"].
Proof.
  intros Hn.
  rewrite (validate_unfold NAVI_OPTIONS _ AdvancedMenu_options tokens)
    by done.
  cbn zeta. cbn [default_option set_options assign_options AdvancedMenu_init].
  destruct (decide (lower raw ∈ tokens)) as [Hin|Hin].
  { rewrite bool_decide_eq_true_2 by done. split; [by left|done]. }
  rewrite bool_decide_eq_false_2 by done. unfold AdvancedMenu_options.
  destruct (decide (lower raw = "3")) as [->|H3].
  { split; [intros _; right; by left|done]. }
  destruct (decide (lower raw = "4")) as [->|H4].
  { split; [intros _; right; right; by left|done]. }
  destruct (decide (lower raw = "6")) as [->|H6].
  { split; [intros _; right; do 2 right; by left|done]. }
  rewrite !lookup_insert_ne, lookup_singleton_ne by done. cbn.
  split; [done|]. intros [?|Hl]; [done|].
  apply list_elem_of_In in Hl. cbn in Hl. intuition congruence.
Qed.

(** [set_previous_menu] never leaves the back target empty: it stores the
    menu it is given, and [MainMenu] when it is given [None]; nothing else
    of the menu changes, so that validation is what it was. *)
Theorem set_previous_menu_default (self : BaseMenu) (previous : PyVal) raw :
  previous_menu (set_previous_menu self previous) <> PyNone
  /\ (previous <> PyNone ->
      previous_menu (set_previous_menu self previous) = previous)
  /\ previous_menu (set_previous_menu self PyNone)
     = PyMenuType (SubClass "MainMenu")
  /\ set_previous_menu
       (set_previous_menu self previous)
       (previous_menu (set_previous_menu self previous))
     = set_previous_menu self previous
  /\ validate_user_input NAVI_OPTIONS (set_previous_menu self previous) raw
     = validate_user_input NAVI_OPTIONS self raw.
Proof.
  unfold set_previous_menu. repeat split; by destruct previous.
Qed.

End AdvancedMenuInputs.

(** A fresh [AdvancedMenu], reached from the parent through token 4. *)
Lemma run_unpopulated_options_witness :
  run NAVI_OPTIONS_spec demo_classes demo_call 1 2
    (mkWorld (<[2 := AdvancedMenu_init (PyMenu 0)]> (demo_heap BACK))
       ["3"; "b"] [])
  = Raise AttributeError
      (mkWorld (<[2 := AdvancedMenu_init (PyMenu 0)]> (demo_heap BACK)) ["b"]
         [Header; MenuBody "AdvancedMenu"; BackFooter;
          Prompt "Perform action"]).
Proof.
  pose proof (run_unpopulated_options NAVI_OPTIONS_spec demo_classes demo_call
                0 2 (AdvancedMenu_init (PyMenu 0))
                (mkWorld (<[2 := AdvancedMenu_init (PyMenu 0)]> (demo_heap BACK))
                   ["3"; "b"] [])
                (mkWorld (<[2 := AdvancedMenu_init (PyMenu 0)]> (demo_heap BACK))
                   ["3"; "b"] [Header; MenuBody "AdvancedMenu"; BackFooter])
                "3" ["b"]) as H.
  simpl in H. apply H.
  - vm_compute. reflexivity.
  - reflexivity.
  - vm_compute. reflexivity.
  - reflexivity.
Defined.

(** The entry 5 of the menu body has no option: it is invalid input. *)
Lemma AdvancedMenu_accepted_inputs_witness :
  (lower "4" ∈ ["b"] \/ lower "4" ∈ ["3"; "4"; "6"] ->
   validate_user_input NAVI_OPTIONS_spec
     (set_options (AdvancedMenu_init PyNone)) "4" <> Ok PyNone)
  /\ (validate_user_input NAVI_OPTIONS_spec
        (set_options (AdvancedMenu_init PyNone)) "4" <> Ok PyNone ->
      lower "4" ∈ ["b"] \/ lower "4" ∈ ["3"; "4"; "6"]).
Proof.
  destruct (AdvancedMenu_accepted_inputs NAVI_OPTIONS_spec PyNone ["b"] "4")
    as [H1 H2].
  - vm_compute. reflexivity.
  - split; [exact H2 | exact H1].
Defined.

Lemma set_previous_menu_default_witness :
  previous_menu (set_previous_menu (AdvancedMenu_init PyNone) (PyMenu 0))
  = PyMenu 0.
Proof.
  apply (proj1 (proj2 (set_previous_menu_default NAVI_OPTIONS_spec
                         (AdvancedMenu_init PyNone) (PyMenu 0) ""))).
  discriminate.
Defined.
